(** * Interlaced sparse self-attention head (PaddleX / PaddleSeg ISANet)

    A shallow embedding of
      - [paddlex/cv/nets/paddleseg/models/isanet.py]  ([ISANet], [ISAHead])
      - [paddlex/utils/env.py]                        ([get_num_workers])
    together with the tensor primitives of the framework that the head
    calls ([reshape], [transpose], [F.pad], slicing, [paddle.concat]).

    Tensors are kept as a shape and a row-major list of elements.  Python
    integers are [Z]; extents stored inside a tensor are [nat].  Python
    exceptions are the constructors of [exn], and every operation that can
    raise returns a [result]. *)

From Stdlib Require Import String.
From Stdlib Require Import List ZArith Lia Bool Arith.
Import ListNotations.
Local Open Scope Z_scope.

(** ** Exceptions and the error monad *)

Inductive exn : Type :=
| IndexError          (* sequence index out of range *)
| ValueError          (* wrong number of values to unpack *)
| ZeroDivisionError   (* division by zero *)
| InvalidArgument     (* an error raised by a framework operator *)
| AssertionError.     (* an assertion of a layer constructor *)

(** The name under which Python reports an exception. *)
Definition exn_name (e : exn) : string :=
  match e with
  | IndexError => "IndexError"
  | ValueError => "ValueError"
  | ZeroDivisionError => "ZeroDivisionError"
  | InvalidArgument => "InvalidArgument"
  | AssertionError => "AssertionError"
  end.

Inductive result (X : Type) : Type :=
| Ok (x : X)
| Err (e : exn).
Arguments Ok {X} x.
Arguments Err {X} e.

Definition bind {X Y : Type} (r : result X) (k : X -> result Y) : result Y :=
  match r with
  | Ok x => k x
  | Err e => Err e
  end.

Notation "x <- e ;; k" := (bind e (fun x => k))
  (at level 61, e at next level, right associativity).

Fixpoint map_result {X Y : Type} (f : X -> result Y) (l : list X)
  : result (list Y) :=
  match l with
  | [] => Ok []
  | x :: l' => y <- f x ;; ys <- map_result f l' ;; Ok (y :: ys)
  end.

(** Python [l[i]]: negative indices count from the end. *)
Definition py_index {X : Type} (l : list X) (i : Z) : result X :=
  let len := Z.of_nat (length l) in
  let j := if i <? 0 then i + len else i in
  if (j <? 0) || (len <=? j) then Err IndexError
  else match nth_error l (Z.to_nat j) with
       | Some x => Ok x
       | None => Err IndexError
       end.

(** Python [math.ceil(a / b)] on integers.  The true quotient [a / b] is
    a correctly rounded float: for [0 <= a < 2^53] and [1 <= b < 2^53] its
    ceiling is the integer ceiling of the exact quotient, which is what
    this definition computes; from 2^53 on the float rounds, and a
    quotient that underflows becomes 0. *)
Definition ceil_div (a b : Z) : result Z :=
  if b =? 0 then Err ZeroDivisionError else Ok (- ((- a) / b)).

(** Python slice bound normalisation for [l[i:...]] on an axis of extent [d]. *)
Definition slice_bound (i d : Z) : Z :=
  if i <? 0 then Z.max 0 (i + d) else Z.min i d.

(** ** Row-major index arithmetic *)

Definition numel (s : list nat) : nat := fold_right Nat.mul 1%nat s.

Fixpoint ravel (s idx : list nat) : nat :=
  match s, idx with
  | _ :: s', i :: idx' => (i * numel s' + ravel s' idx')%nat
  | _, _ => 0%nat
  end.

Fixpoint unravel (s : list nat) (k : nat) : list nat :=
  match s with
  | [] => []
  | _ :: s' => (k / numel s')%nat :: unravel s' (k mod numel s')%nat
  end.

Fixpoint in_bounds (idx s : list nat) : Prop :=
  match idx, s with
  | [], [] => True
  | i :: idx', d :: s' => (i < d)%nat /\ in_bounds idx' s'
  | _, _ => False
  end.

(** Axis permutations: [permute perm l] has [l[perm[i]]] at position [i];
    [unpermute perm idx] sends an index of the permuted tensor back to the
    index of the original one. *)
Definition permute {X : Type} (d : X) (perm : list nat) (l : list X) : list X :=
  map (fun p => nth p l d) perm.

Fixpoint index_of (a : nat) (l : list nat) : nat :=
  match l with
  | [] => 0%nat
  | x :: l' => if Nat.eqb x a then 0%nat else S (index_of a l')
  end.

Definition unpermute (perm idx : list nat) : list nat :=
  map (fun a => nth (index_of a perm) idx 0%nat) (seq 0 (length perm)).

Definition is_perm (perm : list nat) (rank : nat) : bool :=
  Nat.eqb (length perm) rank
  && forallb (fun a => existsb (Nat.eqb a) perm) (seq 0 rank).

Section ISA.

Variable A : Type.
Variable zero : A.

(** ** Tensors *)

Record tensor : Type := mkTensor { shape : list nat; data : list A }.

Definition wf (t : tensor) : Prop := length (data t) = numel (shape t).

(** Python's [x.shape]. *)
Definition shapeZ (t : tensor) : list Z := map Z.of_nat (shape t).

Definition tget (t : tensor) (idx : list nat) : A :=
  nth (ravel (shape t) idx) (data t) zero.

Definition build (s : list nat) (f : list nat -> A) : tensor :=
  {| shape := s;
     data := map (fun k => f (unravel s k)) (seq 0 (numel s)) |}.

(** *** [Tensor.reshape]

    A target entry [-1] is inferred from the element count (at most one),
    an entry [0] copies the extent of the input at that position, any other
    negative entry is refused, and the element count must be preserved. *)

Fixpoint copy_dims (xs : list nat) (i : nat) (target : list Z)
  : result (list Z) :=
  match target with
  | [] => Ok []
  | d :: rest =>
      d' <- (if d =? 0
             then match nth_error xs i with
                  | Some v => Ok (Z.of_nat v)
                  | None => Err InvalidArgument
                  end
             else Ok d) ;;
      rest' <- copy_dims xs (S i) rest ;;
      Ok (d' :: rest')
  end.

Definition count_unk (target : list Z) : nat :=
  length (filter (fun d => d =? -1) target).

Definition known_prod (target : list Z) : Z :=
  fold_right Z.mul 1 (filter (fun d => negb (d =? -1)) target).

Definition reshape (t : tensor) (target : list Z) : result tensor :=
  if existsb (fun d => d <? -1) target then Err InvalidArgument
  else if (1 <? count_unk target)%nat then Err InvalidArgument
  else
    tgt <- copy_dims (shape t) 0 target ;;
    let known := known_prod tgt in
    let total := Z.of_nat (numel (shape t)) in
    if (count_unk target =? 0)%nat then
      if known =? total
      then Ok {| shape := map Z.to_nat tgt; data := data t |}
      else Err InvalidArgument
    else if known =? 0 then Err InvalidArgument
    else if total mod known =? 0
    then Ok {| shape := map (fun d => Z.to_nat
                              (if d =? -1 then total / known else d)) tgt;
               data := data t |}
    else Err InvalidArgument.

(** *** [Tensor.transpose(perm)]: axis [i] of the result is axis [perm[i]]
    of the input. *)
Definition transpose (t : tensor) (perm : list nat) : result tensor :=
  if is_perm perm (length (shape t))
  then Ok (build (permute 0%nat perm (shape t))
                 (fun idx => tget t (unpermute perm idx)))
  else Err InvalidArgument.

(** *** [F.pad(x, [left, right, top, bottom])] on a 4-D NCHW tensor,
    constant mode with value 0.  The head only passes non-negative amounts
    when the group factor is positive; negative amounts are refused. *)
Definition F_pad (x : tensor) (padding : list Z) : result tensor :=
  match shape x, padding with
  | [n; c; h; w], [pl; pr; pt; pb] =>
      if (pl <? 0) || (pr <? 0) || (pt <? 0) || (pb <? 0)
      then Err InvalidArgument
      else
        let top := Z.to_nat pt in
        let left := Z.to_nat pl in
        Ok (build [n; c; (top + h + Z.to_nat pb)%nat;
                         (left + w + Z.to_nat pr)%nat]
              (fun idx =>
                 match idx with
                 | [i; j; y; x0] =>
                     if (top <=? y)%nat && (y <? top + h)%nat
                        && (left <=? x0)%nat && (x0 <? left + w)%nat
                     then tget x [i; j; (y - top)%nat; (x0 - left)%nat]
                     else zero
                 | _ => zero
                 end))
  | _, _ => Err InvalidArgument
  end.

(** *** [t[:, :, y0:y1, x0:x1]] on a 4-D tensor. *)
Definition slice_hw (t : tensor) (y0 y1 x0 x1 : Z) : result tensor :=
  match shape t with
  | [n; c; hh; ww] =>
      let ys := slice_bound y0 (Z.of_nat hh) in
      let ye := slice_bound y1 (Z.of_nat hh) in
      let xs := slice_bound x0 (Z.of_nat ww) in
      let xe := slice_bound x1 (Z.of_nat ww) in
      Ok (build [n; c; Z.to_nat (ye - ys); Z.to_nat (xe - xs)]
            (fun idx =>
               match idx with
               | [i; j; y; x] =>
                   tget t [i; j; (Z.to_nat ys + y)%nat; (Z.to_nat xs + x)%nat]
               | _ => zero
               end))
  | _ => Err IndexError
  end.

(** *** [paddle.concat([a, b], axis=1)] on 4-D tensors. *)
Definition concat1 (a b : tensor) : result tensor :=
  match shape a, shape b with
  | [n; ca; h; w], [n'; cb; h'; w'] =>
      if Nat.eqb n n' && Nat.eqb h h' && Nat.eqb w w'
      then Ok (build [n; (ca + cb)%nat; h; w]
                 (fun idx =>
                    match idx with
                    | [i; j; y; x] =>
                        if (j <? ca)%nat then tget a [i; j; y; x]
                        else tget b [i; (j - ca)%nat; y; x]
                    | _ => zero
                    end))
      else Err InvalidArgument
  | _, _ => Err InvalidArgument
  end.

(** ** Layers *)

(** Modelled from the spec: [layers.ConvBNReLU] and [layers.AttentionBlock]
    (the base of [SelfAttentionBlock]) live in the repository's [layers]
    package, which is not part of the sources at hand; [nn.Conv2D],
    [nn.Dropout2D] and [nn.Sequential] are the framework's.  A layer is its
    configuration together with the map its learned weights compute. *)
#[warnings="-register-all"]
Inductive Layer : Type :=
| ConvBNReLU (in_ch out_ch kernel_size : Z) (w : tensor -> list A)
| Conv2D (in_ch out_ch kernel_size : Z) (w : tensor -> list A)
| Dropout2D (p_percent : Z) (mask : tensor -> list A)
| AttentionBlock (in_ch channels : Z) (w : tensor -> list A)
| Sequential (ls : list Layer).

(** Modelled from the spec: applying a layer (sections 4.2 and 6).  A
    ConvBlock takes a 4-D map with [in_ch] channels to [out_ch] channels at
    the same resolution; an attention block gives back the shape it was
    given; a layer refuses a map whose channel count is not its [in_ch]. *)
Fixpoint apply_layer (l : Layer) (t : tensor) : result tensor :=
  match l with
  | ConvBNReLU cin cout _ w =>
      (* convolution with 'same' padding, batch norm, ReLU *)
      match shape t with
      | [n; c; h; wd] =>
          if Z.of_nat c =? cin
          then Ok {| shape := [n; Z.to_nat cout; h; wd]; data := w t |}
          else Err InvalidArgument
      | _ => Err InvalidArgument
      end
  | Conv2D cin cout k w =>
      (* stride 1, no padding *)
      match shape t with
      | [n; c; h; wd] =>
          if (Z.of_nat c =? cin) && (1 <=? k)
             && (k <=? Z.of_nat h) && (k <=? Z.of_nat wd)
          then Ok {| shape := [n; Z.to_nat cout;
                               Z.to_nat (Z.of_nat h - k + 1);
                               Z.to_nat (Z.of_nat wd - k + 1)];
                     data := w t |}
          else Err InvalidArgument
      | _ => Err InvalidArgument
      end
  | Dropout2D _ mask =>
      match shape t with
      | [_; _; _; _] => Ok {| shape := shape t; data := mask t |}
      | _ => Err InvalidArgument
      end
  | AttentionBlock cin _ w =>
      match shape t with
      | [_; c; _; _] =>
          if Z.of_nat c =? cin
          then Ok {| shape := shape t; data := w t |}
          else Err InvalidArgument
      | _ => Err InvalidArgument
      end
  | Sequential ls =>
      (fix go (ls : list Layer) (t : tensor) : result tensor :=
         match ls with
         | [] => Ok t
         | l' :: rest => t' <- apply_layer l' t ;; go rest t'
         end) ls t
  end.

(** [SelfAttentionBlock(in_channels, channels)]: an attention block whose
    key, query and output channel counts are all [in_channels]; its
    [forward] attends [x] to itself and applies [output_project], again
    from [in_channels] to [in_channels].  The map [w] is the composition. *)
Definition SelfAttentionBlock (in_ch channels : Z) (w : tensor -> list A)
  : Layer := AttentionBlock in_ch channels w.

(** The maps computed by the weights the constructors allocate. *)
Record Weights : Type := mkWeights {
  w_in_conv : tensor -> list A;
  w_global_relation : tensor -> list A;
  w_local_relation : tensor -> list A;
  w_out_conv : tensor -> list A;
  w_cls_dropout : tensor -> list A;
  w_cls_conv : tensor -> list A;
  w_aux_conv : tensor -> list A;
  w_aux_dropout : tensor -> list A;
  w_aux_cls : tensor -> list A
}.

(** ** [ISAHead] *)

Record ISAHead : Type := mkISAHead {
  in_channels : Z;
  down_factor : list Z;
  enable_auxiliary_loss : bool;
  in_conv : Layer;
  global_relation : Layer;
  local_relation : Layer;
  out_conv : Layer;
  cls : Layer;
  aux : Layer
}.

(** Modelled from the spec: the constructor calls of the layers.  A
    convolution is refused when a channel count is not positive (the
    reduced channel count must be a positive integer, section 4.1); the
    framework reports it by an [AssertionError]. *)
Definition ConvBNReLU_init (in_ch out_ch kernel_size : Z)
    (w : tensor -> list A) : result Layer :=
  if (0 <? in_ch) && (0 <? out_ch)
  then Ok (ConvBNReLU in_ch out_ch kernel_size w)
  else Err AssertionError.

(** Modelled from the spec: [nn.Conv2D(in_ch, out_ch, kernel_size)], with
    the same refusal. *)
Definition Conv2D_init (in_ch out_ch kernel_size : Z)
    (w : tensor -> list A) : result Layer :=
  if (0 <? in_ch) && (0 <? out_ch)
  then Ok (Conv2D in_ch out_ch kernel_size w)
  else Err AssertionError.

(** [SelfAttentionBlock.__init__]: the projections it builds are
    convolutions between [in_channels] and [channels]. *)
Definition SelfAttentionBlock_init (in_ch channels : Z)
    (w : tensor -> list A) : result Layer :=
  if (0 <? in_ch) && (0 <? channels)
  then Ok (SelfAttentionBlock in_ch channels w)
  else Err AssertionError.

(** [ISAHead.__init__] *)
Definition ISAHead_init (num_classes : Z) (in_channels : list Z)
    (isa_channels : Z) (down_factor : list Z)
    (enable_auxiliary_loss : bool) (th : Weights) : result ISAHead :=
  self_in_channels <- py_index in_channels (-1) ;;
  let inter_channels := self_in_channels / 4 in
  in_conv <- ConvBNReLU_init self_in_channels inter_channels 3
               (w_in_conv th) ;;
  global_relation <- SelfAttentionBlock_init inter_channels isa_channels
                       (w_global_relation th) ;;
  local_relation <- SelfAttentionBlock_init inter_channels isa_channels
                      (w_local_relation th) ;;
  out_conv <- ConvBNReLU_init (inter_channels * 2) inter_channels 1
                (w_out_conv th) ;;
  cls_conv <- Conv2D_init inter_channels num_classes 1 (w_cls_conv th) ;;
  aux_conv <- ConvBNReLU_init 1024 256 3 (w_aux_conv th) ;;
  aux_cls <- Conv2D_init 256 num_classes 1 (w_aux_cls th) ;;
  Ok {| in_channels := self_in_channels;
        down_factor := down_factor;
        enable_auxiliary_loss := enable_auxiliary_loss;
        in_conv := in_conv;
        global_relation := global_relation;
        local_relation := local_relation;
        out_conv := out_conv;
        cls := Sequential [Dropout2D 10 (w_cls_dropout th); cls_conv];
        aux := Sequential [aux_conv; Dropout2D 10 (w_aux_dropout th);
                           aux_cls] |}.

(** [ISAHead.forward], lines 131-137: pad to a multiple of the group factor. *)
Definition grid_padding (pad_h pad_w : Z) : list Z :=
  [pad_w / 2; pad_w - pad_w / 2; pad_h / 2; pad_h - pad_h / 2].

Definition pad_to_grid (x : tensor) (pad_h pad_w : Z) : result tensor :=
  if (pad_h >? 0) || (pad_w >? 0)
  then F_pad x (grid_padding pad_h pad_w)
  else Ok x.

(** Lines 139-140: the layout the global relation works on. *)
Definition to_global_layout (feat : tensor) (n c Q_h P_h Q_w P_w : Z)
  : result tensor :=
  feat <- reshape feat [n; c; Q_h; P_h; Q_w; P_w] ;;
  feat <- transpose feat [0; 3; 5; 1; 2; 4]%nat ;;
  reshape feat [-1; c; Q_h; Q_w].

(** Lines 143-144: the layout the local relation works on. *)
Definition to_local_layout (feat : tensor) (n c Q_h P_h Q_w P_w : Z)
  : result tensor :=
  feat <- reshape feat [n; P_h; P_w; c; Q_h; Q_w] ;;
  feat <- transpose feat [0; 4; 5; 3; 1; 2]%nat ;;
  reshape feat [-1; c; P_h; P_w].

(** Lines 147-149: back to the image layout. *)
Definition recompose (feat : tensor) (n c Q_h P_h Q_w P_w : Z)
  : result tensor :=
  feat <- reshape feat [n; Q_h; Q_w; c; P_h; P_w] ;;
  feat <- transpose feat [0; 3; 1; 4; 2; 5]%nat ;;
  reshape feat [n; c; P_h * Q_h; P_w * Q_w].

(** Lines 150-152: remove the padding. *)
Definition crop (feat : tensor) (pad_h pad_w h w : Z) : result tensor :=
  if (pad_h >? 0) || (pad_w >? 0)
  then slice_hw feat (pad_h / 2) (pad_h / 2 + h) (pad_w / 2) (pad_w / 2 + w)
  else Ok feat.

(** Lines 127-152, from the reduced map [x] to the cropped attention map. *)
Definition interlace (self : ISAHead) (x : tensor) : result tensor :=
  match shapeZ x with
  | [n; c; h; w] =>
      match down_factor self with
      | [P_h; P_w] =>
          Q_h <- ceil_div h P_h ;;
          Q_w <- ceil_div w P_w ;;
          let pad_h := Q_h * P_h - h in
          let pad_w := Q_w * P_w - w in
          feat <- pad_to_grid x pad_h pad_w ;;
          feat <- to_global_layout feat n c Q_h P_h Q_w P_w ;;
          feat <- apply_layer (global_relation self) feat ;;
          feat <- to_local_layout feat n c Q_h P_h Q_w P_w ;;
          feat <- apply_layer (local_relation self) feat ;;
          feat <- recompose feat n c Q_h P_h Q_w P_w ;;
          crop feat pad_h pad_w h w
      | _ => Err ValueError
      end
  | _ => Err ValueError
  end.

(** Lines 126-154: reduction, interlaced attention and fusion. *)
Definition fuse (self : ISAHead) (C4 : tensor) : result tensor :=
  x <- apply_layer (in_conv self) C4 ;;
  feat <- interlace self x ;;
  cat <- concat1 feat x ;;
  apply_layer (out_conv self) cat.

(** [ISAHead.forward] *)
Definition ISAHead_forward (self : ISAHead) (feat_list : list tensor)
  : result (list tensor) :=
  match feat_list with
  | [C3; C4] =>
      feat <- fuse self C4 ;;
      output <- apply_layer (cls self) feat ;;
      if enable_auxiliary_loss self
      then auxout <- apply_layer (aux self) C3 ;; Ok [output; auxout]
      else Ok [output]
  | _ => Err ValueError
  end.

(** ** [ISANet] *)

(** [F.interpolate(logit, size, mode='bilinear', align_corners, align_mode=1)]:
    the sampled values are the framework's. *)
Variable bilinear : tensor -> list Z -> bool -> list A.

Definition F_interpolate (logit : tensor) (size : list Z) (align : bool)
  : result tensor :=
  match shape logit, size with
  | [n; c; _; _], [oh; ow] =>
      if (0 <? oh) && (0 <? ow)
      then Ok {| shape := [n; c; Z.to_nat oh; Z.to_nat ow];
                 data := bilinear logit size align |}
      else Err InvalidArgument
  | _, _ => Err InvalidArgument
  end.

Record ISANet : Type := mkISANet {
  backbone : tensor -> result (list tensor);
  backbone_indices : list Z;
  head : ISAHead;
  align_corners : bool;
  pretrained : option string
}.

(** [utils.load_entire_model(model, pretrained)] updates the model in place. *)
Variable load_entire_model : ISANet -> string -> result ISANet.

(** [ISANet.init_weight] *)
Definition init_weight (self : ISANet) : result ISANet :=
  match pretrained self with
  | Some path => load_entire_model self path
  | None => Ok self
  end.

(** [ISANet.__init__]; [feat_channels] is [backbone.feat_channels]. *)
Definition ISANet_init (num_classes : Z)
    (backbone : tensor -> result (list tensor)) (feat_channels : list Z)
    (backbone_indices : list Z) (isa_channels : Z) (down_factor : list Z)
    (enable_auxiliary_loss align_corners : bool) (pretrained : option string)
    (th : Weights) : result ISANet :=
  in_channels <- map_result (py_index feat_channels) backbone_indices ;;
  head <- ISAHead_init num_classes in_channels isa_channels down_factor
            enable_auxiliary_loss th ;;
  init_weight {| backbone := backbone;
                 backbone_indices := backbone_indices;
                 head := head;
                 align_corners := align_corners;
                 pretrained := pretrained |}.

(** [ISANet.forward] *)
Definition ISANet_forward (self : ISANet) (x : tensor)
  : result (list tensor) :=
  feats <- backbone self x ;;
  feats <- map_result (py_index feats) (backbone_indices self) ;;
  logit_list <- ISAHead_forward (head self) feats ;;
  map_result (fun logit =>
                F_interpolate logit (skipn 2 (shapeZ x)) (align_corners self))
             logit_list.

End ISA.

Arguments mkTensor {A} shape data.
Arguments shape {A} t.
Arguments data {A} t.
Arguments wf {A} t.
Arguments shapeZ {A} t.
Arguments tget {A} zero t idx.
Arguments build {A} s f.
Arguments reshape {A} t target.
Arguments transpose {A} zero t perm.
Arguments F_pad {A} zero x padding.
Arguments slice_hw {A} zero t y0 y1 x0 x1.
Arguments concat1 {A} zero a b.
Arguments ConvBNReLU {A} in_ch out_ch kernel_size w.
Arguments Conv2D {A} in_ch out_ch kernel_size w.
Arguments Dropout2D {A} p_percent mask.
Arguments AttentionBlock {A} in_ch channels w.
Arguments Sequential {A} ls.
Arguments SelfAttentionBlock {A} in_ch channels w.
Arguments ConvBNReLU_init {A} in_ch out_ch kernel_size w.
Arguments Conv2D_init {A} in_ch out_ch kernel_size w.
Arguments SelfAttentionBlock_init {A} in_ch channels w.
Arguments apply_layer {A} l t.
Arguments mkWeights {A}.
Arguments w_in_conv {A} w.
Arguments w_global_relation {A} w.
Arguments w_local_relation {A} w.
Arguments w_out_conv {A} w.
Arguments w_cls_dropout {A} w.
Arguments w_cls_conv {A} w.
Arguments w_aux_conv {A} w.
Arguments w_aux_dropout {A} w.
Arguments w_aux_cls {A} w.
Arguments mkISAHead {A}.
Arguments in_channels {A} i.
Arguments down_factor {A} i.
Arguments enable_auxiliary_loss {A} i.
Arguments in_conv {A} i.
Arguments global_relation {A} i.
Arguments local_relation {A} i.
Arguments out_conv {A} i.
Arguments cls {A} i.
Arguments aux {A} i.
Arguments ISAHead_init {A}.
Arguments pad_to_grid {A} zero x pad_h pad_w.
Arguments to_global_layout {A} zero feat n c Q_h P_h Q_w P_w.
Arguments to_local_layout {A} zero feat n c Q_h P_h Q_w P_w.
Arguments recompose {A} zero feat n c Q_h P_h Q_w P_w.
Arguments crop {A} zero feat pad_h pad_w h w.
Arguments interlace {A} zero self x.
Arguments fuse {A} zero self C4.
Arguments ISAHead_forward {A} zero self feat_list.
Arguments F_interpolate {A} bilinear logit size align.
Arguments mkISANet {A}.
Arguments backbone {A} i.
Arguments backbone_indices {A} i.
Arguments head {A} i.
Arguments align_corners {A} i.
Arguments pretrained {A} i.
Arguments init_weight {A} load_entire_model self.
Arguments ISANet_init {A} load_entire_model.
Arguments ISANet_forward {A} zero bilinear self x.

(** ** [paddlex/utils/env.py] *)

(** The values [num_workers] takes: the string ['auto'], an integer, [None]. *)
Inductive pyval : Type :=
| PyStr (s : string)
| PyInt (z : Z)
| PyNone.

Definition pyval_eqb (a b : pyval) : bool :=
  match a, b with
  | PyStr s, PyStr s' => String.eqb s s'
  | PyInt z, PyInt z' => z =? z'
  | PyNone, PyNone => true
  | _, _ => false
  end.

(** [get_num_workers]; [cpu_count] is what [mp.cpu_count()] returns. *)
Definition get_num_workers (cpu_count : Z) (num_workers : pyval) : pyval :=
  if pyval_eqb num_workers (PyStr "auto")
  then PyInt (if cpu_count / 2 <? 8 then cpu_count / 2 else 8)
  else num_workers.

(** A Python dict with string keys, in insertion order; assigning to a key
    that is present keeps its place. *)
Definition dict (V : Type) : Type := list (string * V).

Fixpoint dict_get {V : Type} (k : string) (d : dict V) : option V :=
  match d with
  | [] => None
  | (k', v) :: rest => if String.eqb k' k then Some v else dict_get k rest
  end.

Fixpoint dict_set {V : Type} (k : string) (v : V) (d : dict V) : dict V :=
  match d with
  | [] => [(k, v)]
  | (k', v') :: rest =>
      if String.eqb k' k then (k', v) :: rest
      else (k', v') :: dict_set k v rest
  end.

(** Python's [sub in s] on strings. *)
Fixpoint contains (sub s : string) : bool :=
  String.prefix sub s
  || match s with
     | EmptyString => false
     | String _ s' => contains sub s'
     end.

(** What the framework reports: [paddle.is_compiled_with_cuda()],
    [paddle.get_device()] and [paddle.distributed.ParallelEnv().nranks]. *)
Record Runtime : Type := mkRuntime {
  is_compiled_with_cuda : bool;
  get_device : string;
  nranks : Z
}.

Section Env.

(** Python's [int] on a string; it raises when the string is no numeral. *)
Variable int_of_str : string -> result Z.

(** [int(os.environ.get('CPU_NUM', 1))] *)
Definition cpu_num (os_environ : dict string) : result Z :=
  match dict_get "CPU_NUM" os_environ with
  | Some s => int_of_str s
  | None => Ok 1
  end.

(** [get_environ_info]: returns the dictionary, or the error raised, and
    [os.environ] as the call leaves it.  [gpu_nums] is bound only under
    [compiled_with_cuda]; every later use is guarded by it. *)
Definition get_environ_info (rt : Runtime) (os_environ : dict string)
  : result (dict pyval) * dict string :=
  let env_info : dict pyval := [] in
  let compiled_with_cuda := is_compiled_with_cuda rt in
  let gpu_nums : option Z :=
    if compiled_with_cuda
    then Some (if contains "gpu" (get_device rt) then nranks rt else 0)
    else None in
  let os_environ :=
    match gpu_nums with
    | Some g =>
        if g =? 0
        then dict_set "CUDA_VISIBLE_DEVICES" EmptyString os_environ
        else os_environ
    | None => os_environ
    end in
  let place : string :=
    if compiled_with_cuda
       && match gpu_nums with
          | Some g => negb (g =? 0)
          | None => false
          end
    then "gpu"%string else "cpu"%string in
  let env_info := dict_set "place" (PyStr place) env_info in
  match cpu_num os_environ with
  | Err e => (Err e, os_environ)
  | Ok num =>
      let env_info := dict_set "num" (PyInt num) env_info in
      let env_info :=
        if String.eqb place "gpu"
        then match gpu_nums with
             | Some g => dict_set "num" (PyInt g) env_info
             | None => env_info
             end
        else env_info in
      (Ok env_info, os_environ)
  end.

End Env.

(** The place [get_environ_info] settles on is the GPU. *)
Definition gpu_place (rt : Runtime) : bool :=
  is_compiled_with_cuda rt && contains "gpu" (get_device rt)
  && negb (nranks rt =? 0).

(** ** Vocabulary of the statements *)

Section Vocabulary.

Context {A : Type} (zero : A).

(** [regroup s perm d] is the data of a tensor of shape [s] holding [d],
    transposed by [perm]. *)
Definition regroup (s perm : list nat) (d : list A) : list A :=
  data (build (permute 0%nat perm s)
              (fun idx => tget zero (mkTensor s d) (unpermute perm idx))).

(** What the padded map holds: the input, shifted by the top and left
    padding, and [zero] on the border. *)
Definition padded_at (x : tensor A) (h w top left : nat) (idx : list nat) : A :=
  match idx with
  | [i; j; y; x0] =>
      if (top <=? y)%nat && (y <? top + h)%nat
         && (left <=? x0)%nat && (x0 <? left + w)%nat
      then tget zero x [i; j; (y - top)%nat; (x0 - left)%nat]
      else zero
  | _ => zero
  end.

(** The head [ISAHead.__init__] builds from the last channel count [c]. *)
Definition built_head (num_classes c isa_channels : Z) (down_factor : list Z)
    (enable : bool) (th : Weights A) : ISAHead A :=
  {| in_channels := c;
     down_factor := down_factor;
     enable_auxiliary_loss := enable;
     in_conv := ConvBNReLU c (c / 4) 3 (w_in_conv th);
     global_relation :=
       SelfAttentionBlock (c / 4) isa_channels (w_global_relation th);
     local_relation :=
       SelfAttentionBlock (c / 4) isa_channels (w_local_relation th);
     out_conv := ConvBNReLU (c / 4 * 2) (c / 4) 1 (w_out_conv th);
     cls := Sequential [Dropout2D 10 (w_cls_dropout th);
                        Conv2D (c / 4) num_classes 1 (w_cls_conv th)];
     aux := Sequential [ConvBNReLU 1024 256 3 (w_aux_conv th);
                        Dropout2D 10 (w_aux_dropout th);
                        Conv2D 256 num_classes 1 (w_aux_cls th)] |}.

(** A layer that gives back every feature map with [c] channels unchanged. *)
Definition identity_on (l : Layer A) (c : nat) : Prop :=
  forall b h w d,
    apply_layer l (mkTensor [b; c; h; w] d) = Ok (mkTensor [b; c; h; w] d).

(** A layer that keeps the shape of every feature map with [c] channels. *)
Definition shape_preserving (l : Layer A) (c : nat) : Prop :=
  forall b h w d, exists d',
    apply_layer l (mkTensor [b; c; h; w] d) = Ok (mkTensor [b; c; h; w] d').

End Vocabulary.

(** ** Concrete inputs, over integer elements *)

Definition ex_identity_weights : Weights Z :=
  mkWeights data data data data data data data data data.

Definition ex_blank_weights : Weights Z :=
  let blank := fun _ : tensor Z => @nil Z in
  mkWeights blank blank blank blank blank blank blank blank blank.

(** A 3 x 5 map with two channels, holding 1 .. 30. *)
Definition ex_map : tensor Z :=
  mkTensor [1; 2; 3; 5]%nat (map Z.of_nat (seq 1 30)).

(** A 4 x 6 map with two channels: 2 x 3 groups of 2 x 2. *)
Definition ex_padded : tensor Z :=
  mkTensor [1; 2; 4; 6]%nat (map Z.of_nat (seq 1 48)).

Definition ex_map13 : tensor Z :=
  mkTensor [1; 1; 13; 13]%nat (map Z.of_nat (seq 1 169)).

Definition ex_stage (channels : nat) : tensor Z :=
  mkTensor [1; channels; 1; 1]%nat (repeat 0 channels).

Definition ex_high : tensor Z :=
  mkTensor [1; 8; 3; 5]%nat (map Z.of_nat (seq 1 120)).

Definition ex_image : tensor Z := mkTensor [1; 3; 512; 512]%nat [].

Definition ex_bilinear (t : tensor Z) (size : list Z) (align : bool)
  : list Z := [].

Definition ex_load (net : ISANet Z) (path : string) : result (ISANet Z) :=
  Ok net.

Definition ex_backbone (x : tensor Z) : result (list (tensor Z)) :=
  Ok [ex_stage 256; ex_stage 512; ex_stage 1024; ex_stage 2048].

Definition ex_short_backbone (x : tensor Z) : result (list (tensor Z)) :=
  Ok [ex_stage 256; ex_stage 512; ex_stage 1024].

Definition ex_net (bb : tensor Z -> result (list (tensor Z))) : ISANet Z :=
  {| backbone := bb;
     backbone_indices := [2; 3];
     head := built_head 19 2048 256 [8; 8] true ex_blank_weights;
     align_corners := false;
     pretrained := None |}.

(** A small network: stages of 1024 and 8 channels, groups of 2 x 2. *)
Definition ex_small_net : ISANet Z :=
  {| backbone := fun _ => Ok [ex_stage 1024; ex_high];
     backbone_indices := [0; 1];
     head := built_head 3 8 4 [2; 2] true ex_blank_weights;
     align_corners := false;
     pretrained := None |}.

(** A map in the local layout: 6 groups of 2 x 2, two channels. *)
Definition ex_local : tensor Z :=
  mkTensor [6; 2; 2; 2]%nat (map Z.of_nat (seq 1 48)).

(** An [int] that reads the numeral 4 and refuses everything else. *)
Definition ex_int_of_str (s : string) : result Z :=
  if String.eqb s "4" then Ok 4 else Err ValueError.

Definition ex_gpu_runtime : Runtime := mkRuntime true "gpu:0" 2.

Definition ex_cpu_runtime : Runtime := mkRuntime true "cpu" 2.

Definition ex_environ : dict string := [("CPU_NUM", "4")]%string.

Definition ex_bad_environ : dict string := [("CPU_NUM", "four")]%string.

(** * Properties *)

(** ** Row-major indices *)

Lemma numel_tail_pos (d : nat) (s : list nat) (k : nat) :
  (k < numel (d :: s))%nat -> (0 < numel s)%nat /\ (k / numel s < d)%nat.
Proof.
  simpl; intros H.
  assert (Hm : (0 < numel s)%nat) by (destruct (numel s); lia).
  split; [exact Hm|].
  apply Nat.Div0.div_lt_upper_bound; lia.
Qed.

Lemma ravel_unravel (s : list nat) :
  forall k, (k < numel s)%nat -> ravel s (unravel s k) = k.
Proof.
  induction s as [|d s IH]; intros k H.
  - simpl in *; lia.
  - destruct (numel_tail_pos d s k H) as [Hm _].
    cbn [unravel ravel].
    rewrite IH by (apply Nat.mod_upper_bound; lia).
    pose proof (Nat.div_mod_eq k (numel s)); lia.
Qed.

Lemma unravel_in_bounds (s : list nat) :
  forall k, (k < numel s)%nat -> in_bounds (unravel s k) s.
Proof.
  induction s as [|d s IH]; intros k H.
  - exact I.
  - destruct (numel_tail_pos d s k H) as [Hm Hd].
    cbn [unravel in_bounds]; split; [exact Hd|].
    apply IH, Nat.mod_upper_bound; lia.
Qed.

Lemma ravel_lt (s : list nat) :
  forall idx, in_bounds idx s -> (ravel s idx < numel s)%nat.
Proof.
  induction s as [|d s IH]; intros [|i idx] H; simpl in H; try contradiction.
  - simpl; lia.
  - destruct H as [Hi H]. specialize (IH idx H).
    cbn [ravel numel fold_right]. fold (numel s). nia.
Qed.

Lemma unravel_ravel (s : list nat) :
  forall idx, in_bounds idx s -> unravel s (ravel s idx) = idx.
Proof.
  induction s as [|d s IH]; intros [|i idx] H; simpl in H; try contradiction.
  - reflexivity.
  - destruct H as [Hi H].
    pose proof (ravel_lt s idx H) as Hr.
    cbn [ravel unravel].
    rewrite Nat.div_add_l by lia.
    rewrite Nat.div_small by lia.
    replace (i * numel s + ravel s idx)%nat
      with (ravel s idx + i * numel s)%nat by lia.
    rewrite Nat.Div0.mod_add, Nat.mod_small by lia.
    rewrite IH by assumption. f_equal; lia.
Qed.

Lemma in_bounds_length (idx s : list nat) :
  in_bounds idx s -> length idx = length s.
Proof.
  revert s; induction idx as [|i idx IH]; intros [|d s] H;
    simpl in *; try contradiction; auto.
  destruct H; f_equal; auto.
Qed.

Section Facts.

Context {A : Type} (zero : A).

Lemma nth_map_seq (f : nat -> A) (n k : nat) :
  (k < n)%nat -> nth k (map f (seq 0 n)) zero = f k.
Proof.
  intros H.
  rewrite (nth_indep _ zero (f 0%nat)) by (rewrite length_map, length_seq; lia).
  rewrite (map_nth f (seq 0 n) 0%nat k), seq_nth by lia. reflexivity.
Qed.

Lemma wf_build (s : list nat) (f : list nat -> A) : wf (build s f).
Proof. unfold wf, build; simpl. now rewrite length_map, length_seq. Qed.

Lemma build_get (s : list nat) (f : list nat -> A) (idx : list nat) :
  in_bounds idx s -> tget zero (build s f) idx = f idx.
Proof.
  intros H. unfold tget, build; simpl.
  rewrite nth_map_seq by (apply ravel_lt; assumption).
  now rewrite unravel_ravel.
Qed.

(** Two well-formed tensors of one shape that agree at every index are equal. *)
Lemma data_ext (s : list nat) (d d' : list A) :
  length d = numel s -> length d' = numel s ->
  (forall idx, in_bounds idx s ->
     nth (ravel s idx) d zero = nth (ravel s idx) d' zero) ->
  d = d'.
Proof.
  intros Hd Hd' H.
  apply (nth_ext d d' zero zero); [congruence|].
  intros k Hk. rewrite Hd in Hk.
  specialize (H (unravel s k) (unravel_in_bounds s k Hk)).
  now rewrite ravel_unravel in H.
Qed.

(** ** [reshape] *)

Lemma copy_dims_nonzero (xs : list nat) (target : list Z) :
  forall i, Forall (fun d => d <> 0) target ->
            copy_dims xs i target = Ok target.
Proof.
  induction target as [|d rest IH]; intros i H; [reflexivity|].
  inversion H as [|? ? Hd Hrest]; subst.
  cbn [copy_dims].
  destruct (Z.eqb_spec d 0) as [E|_]; [contradiction|].
  cbn [bind]. now rewrite IH.
Qed.

Lemma of_nat_list_facts (s : list nat) :
  Forall (fun d => (0 < d)%nat) s ->
  existsb (fun d => d <? -1) (map Z.of_nat s) = false
  /\ filter (fun d => d =? -1) (map Z.of_nat s) = []
  /\ Forall (fun d => d <> 0) (map Z.of_nat s)
  /\ known_prod (map Z.of_nat s) = Z.of_nat (numel s)
  /\ map Z.to_nat (map Z.of_nat s) = s.
Proof.
  induction 1 as [|d s Hd _ IH].
  - repeat split; constructor.
  - destruct IH as (I1 & I2 & I3 & I4 & I5).
    unfold known_prod in *. cbn [map existsb filter].
    destruct (Z.ltb_spec (Z.of_nat d) (-1)); [lia|].
    destruct (Z.eqb_spec (Z.of_nat d) (-1)); [lia|].
    cbn [negb orb fold_right numel]. fold (numel s).
    rewrite I1, I2, I4, I5, Nat2Z.id, Nat2Z.inj_mul.
    repeat split; try reflexivity. constructor; [lia|assumption].
Qed.

(** A target of positive extents with the right element count. *)
Lemma reshape_exact (t : tensor A) (s : list nat) :
  Forall (fun d => (0 < d)%nat) s ->
  numel s = numel (shape t) ->
  reshape t (map Z.of_nat s) = Ok (mkTensor s (data t)).
Proof.
  intros Hs Hn.
  destruct (of_nat_list_facts s Hs) as (I1 & I2 & I3 & I4 & I5).
  unfold reshape, count_unk. rewrite I1, I2. cbn [length Nat.ltb Nat.leb].
  rewrite copy_dims_nonzero by assumption. cbn [bind Nat.eqb].
  rewrite I4, Hn, Z.eqb_refl, I5. reflexivity.
Qed.

(** A target whose leading [-1] is inferred. *)
Lemma reshape_infer (t : tensor A) (b : nat) (s : list nat) :
  Forall (fun d => (0 < d)%nat) s ->
  numel (shape t) = (b * numel s)%nat ->
  reshape t (-1 :: map Z.of_nat s) = Ok (mkTensor (b :: s) (data t)).
Proof.
  intros Hs Hn.
  destruct (of_nat_list_facts s Hs) as (I1 & I2 & I3 & I4 & I5).
  assert (Hpos : (0 < numel s)%nat).
  { clear -Hs. induction Hs; simpl; [lia|]. fold (numel l). nia. }
  assert (E1 : existsb (fun d => d <? -1) (-1 :: map Z.of_nat s) = false)
    by (cbn [existsb]; rewrite I1; reflexivity).
  assert (E2 : count_unk (-1 :: map Z.of_nat s) = 1%nat)
    by (unfold count_unk; cbn [filter Z.eqb Pos.eqb]; rewrite I2; reflexivity).
  assert (E3 : known_prod (-1 :: map Z.of_nat s) = Z.of_nat (numel s))
    by (rewrite <- I4; reflexivity).
  unfold reshape. rewrite E1, E2.
  rewrite copy_dims_nonzero by (constructor; [lia|assumption]).
  cbn [bind Nat.ltb Nat.leb Nat.eqb]. rewrite E3, Hn.
  destruct (Z.eqb_spec (Z.of_nat (numel s)) 0) as [E|_]; [lia|].
  rewrite Nat2Z.inj_mul, Z.mod_mul by lia. cbn [Z.eqb map].
  cbn [Pos.eqb]. rewrite Z.div_mul by lia. rewrite Nat2Z.id.
  do 3 f_equal.
  rewrite <- I5 at 2. rewrite !map_map.
  apply map_ext_in. intros d Hd.
  rewrite Forall_forall in Hs. specialize (Hs d Hd).
  destruct (Z.eqb_spec (Z.of_nat d) (-1)); [lia|reflexivity].
Qed.


(** ** [transpose] *)

Lemma transpose_ok (t : tensor A) (perm : list nat) :
  is_perm perm (length (shape t)) = true ->
  transpose zero t perm
  = Ok (build (permute 0%nat perm (shape t))
              (fun idx => tget zero t (unpermute perm idx))).
Proof. intros H. unfold transpose. now rewrite H. Qed.

Ltac positive_extents := repeat constructor; lia.

Ltac layout_steps Hs s6 b s3 :=
  rewrite (reshape_exact _ s6);
  [ cbn [bind]; rewrite transpose_ok by reflexivity;
    cbn [bind shape permute map nth];
    rewrite (reshape_infer _ b s3);
    [ reflexivity
    | positive_extents
    | cbn [shape build numel fold_right]; ring ]
  | positive_extents
  | rewrite Hs; cbn [numel fold_right]; ring ].

Lemma to_global_layout_ok (t : tensor A) (n c qh ph qw pw : nat) :
  (0 < n)%nat -> (0 < c)%nat -> (0 < qh)%nat -> (0 < ph)%nat ->
  (0 < qw)%nat -> (0 < pw)%nat ->
  shape t = [n; c; qh * ph; qw * pw]%nat ->
  to_global_layout zero t (Z.of_nat n) (Z.of_nat c) (Z.of_nat qh)
    (Z.of_nat ph) (Z.of_nat qw) (Z.of_nat pw)
  = Ok (mkTensor [n * ph * pw; c; qh; qw]%nat
          (regroup zero [n; c; qh; ph; qw; pw] [0; 3; 5; 1; 2; 4]%nat (data t))).
Proof.
  intros Hn Hc Hqh Hph Hqw Hpw Hs.
  unfold to_global_layout, regroup.
  change [Z.of_nat n; Z.of_nat c; Z.of_nat qh; Z.of_nat ph; Z.of_nat qw;
          Z.of_nat pw] with (map Z.of_nat [n; c; qh; ph; qw; pw]).
  change [-1; Z.of_nat c; Z.of_nat qh; Z.of_nat qw]
    with (-1 :: map Z.of_nat [c; qh; qw]).
  layout_steps Hs [n; c; qh; ph; qw; pw] (n * ph * pw)%nat [c; qh; qw].
Qed.

Lemma to_local_layout_ok (g : tensor A) (n c qh ph qw pw : nat) :
  (0 < n)%nat -> (0 < c)%nat -> (0 < qh)%nat -> (0 < ph)%nat ->
  (0 < qw)%nat -> (0 < pw)%nat ->
  shape g = [n * ph * pw; c; qh; qw]%nat ->
  to_local_layout zero g (Z.of_nat n) (Z.of_nat c) (Z.of_nat qh)
    (Z.of_nat ph) (Z.of_nat qw) (Z.of_nat pw)
  = Ok (mkTensor [n * qh * qw; c; ph; pw]%nat
          (regroup zero [n; ph; pw; c; qh; qw] [0; 4; 5; 3; 1; 2]%nat (data g))).
Proof.
  intros Hn Hc Hqh Hph Hqw Hpw Hs.
  unfold to_local_layout, regroup.
  change [Z.of_nat n; Z.of_nat ph; Z.of_nat pw; Z.of_nat c; Z.of_nat qh;
          Z.of_nat qw] with (map Z.of_nat [n; ph; pw; c; qh; qw]).
  change [-1; Z.of_nat c; Z.of_nat ph; Z.of_nat pw]
    with (-1 :: map Z.of_nat [c; ph; pw]).
  layout_steps Hs [n; ph; pw; c; qh; qw] (n * qh * qw)%nat [c; ph; pw].
Qed.

Lemma recompose_ok (l : tensor A) (n c qh ph qw pw : nat) :
  (0 < n)%nat -> (0 < c)%nat -> (0 < qh)%nat -> (0 < ph)%nat ->
  (0 < qw)%nat -> (0 < pw)%nat ->
  shape l = [n * qh * qw; c; ph; pw]%nat ->
  recompose zero l (Z.of_nat n) (Z.of_nat c) (Z.of_nat qh)
    (Z.of_nat ph) (Z.of_nat qw) (Z.of_nat pw)
  = Ok (mkTensor [n; c; ph * qh; pw * qw]%nat
          (regroup zero [n; qh; qw; c; ph; pw] [0; 3; 1; 4; 2; 5]%nat (data l))).
Proof.
  intros Hn Hc Hqh Hph Hqw Hpw Hs.
  unfold recompose, regroup.
  rewrite <- !Nat2Z.inj_mul.
  change [Z.of_nat n; Z.of_nat qh; Z.of_nat qw; Z.of_nat c; Z.of_nat ph;
          Z.of_nat pw] with (map Z.of_nat [n; qh; qw; c; ph; pw]).
  change [Z.of_nat n; Z.of_nat c; Z.of_nat (ph * qh); Z.of_nat (pw * qw)]
    with (map Z.of_nat [n; c; ph * qh; pw * qw]%nat).
  rewrite (reshape_exact _ [n; qh; qw; c; ph; pw]);
    [ | positive_extents | rewrite Hs; cbn [numel fold_right]; ring ].
  cbn [bind]. rewrite transpose_ok by reflexivity.
  cbn [bind shape permute map nth].
  apply (reshape_exact _ [n; c; ph * qh; pw * qw]%nat);
    [ repeat constructor; nia
    | cbn [shape build numel fold_right]; ring ].
Qed.


Lemma regroup_length (s perm : list nat) (d : list A) :
  length (regroup zero s perm d) = numel (permute 0%nat perm s).
Proof. unfold regroup. apply wf_build. Qed.

Lemma regroup_nth (s perm : list nat) (d : list A) (idx : list nat) :
  in_bounds idx (permute 0%nat perm s) ->
  nth (ravel (permute 0%nat perm s) idx) (regroup zero s perm d) zero
  = nth (ravel s (unpermute perm idx)) d zero.
Proof. intros H. unfold regroup. exact (build_get _ _ idx H). Qed.

Ltac six_indices idx H :=
  destruct idx as [|?i [|?j [|?y [|?a [|?x [|?e [|? ?]]]]]]];
  cbn [in_bounds] in H; try contradiction; try (now destruct H);
  try (now decompose [and] H).

(** The three transpositions of [forward] compose to the identity. *)
Lemma regroup_roundtrip (n c qh ph qw pw : nat) (d : list A) :
  length d = numel [n; c; qh; ph; qw; pw] ->
  regroup zero [n; qh; qw; c; ph; pw] [0; 3; 1; 4; 2; 5]%nat
    (regroup zero [n; ph; pw; c; qh; qw] [0; 4; 5; 3; 1; 2]%nat
       (regroup zero [n; c; qh; ph; qw; pw] [0; 3; 5; 1; 2; 4]%nat d))
  = d.
Proof.
  intros Hd.
  apply (data_ext [n; c; qh; ph; qw; pw]);
    [ exact (regroup_length _ _ _) | exact Hd | ].
  intros idx Hb. six_indices idx Hb.
  destruct Hb as (Hi & Hj & Hy & Ha & Hx & He & _).
  etransitivity.
  { apply (regroup_nth [n; qh; qw; c; ph; pw] [0; 3; 1; 4; 2; 5]%nat _
             [i; j; y; a; x; e]).
    cbn; lia. }
  etransitivity.
  { apply (regroup_nth [n; ph; pw; c; qh; qw] [0; 4; 5; 3; 1; 2]%nat _
             [i; y; x; j; a; e]).
    cbn; lia. }
  apply (regroup_nth [n; c; qh; ph; qw; pw] [0; 3; 5; 1; 2; 4]%nat _
           [i; a; e; j; y; x]).
  cbn; lia.
Qed.


(** ** Padding to the grid and cropping *)

Lemma ceil_div_pos (a b : Z) :
  0 < b -> exists q, ceil_div a b = Ok q /\ 0 <= q * b - a < b.
Proof.
  intros Hb. exists (- ((- a) / b)). unfold ceil_div.
  destruct (Z.eqb_spec b 0); [lia|]. split; [reflexivity|].
  pose proof (Z.div_mod (- a) b ltac:(lia)).
  pose proof (Z.mod_pos_bound (- a) b Hb). nia.
Qed.

Lemma tensor_ext (t t' : tensor A) :
  wf t -> wf t' -> shape t = shape t' ->
  (forall idx, in_bounds idx (shape t) -> tget zero t idx = tget zero t' idx) ->
  t = t'.
Proof.
  destruct t as [s d], t' as [s' d']; unfold wf, tget; cbn [shape data].
  intros Hd Hd' <- H. f_equal. now apply (data_ext s).
Qed.

Ltac four_indices idx H :=
  destruct idx as [|?i [|?j [|?y [|?x [|? ?]]]]];
  cbn [in_bounds] in H; try contradiction; try (now destruct H);
  try (now decompose [and] H).

Lemma pad_to_grid_ok (x : tensor A) (n c h w : nat) (pad_h pad_w : Z) :
  shape x = [n; c; h; w] -> 0 <= pad_h -> 0 <= pad_w ->
  exists T,
    pad_to_grid zero x pad_h pad_w = Ok T /\ (wf x -> wf T)
    /\ shape T = [n; c; Z.to_nat (Z.of_nat h + pad_h);
                        Z.to_nat (Z.of_nat w + pad_w)]
    /\ forall idx, in_bounds idx (shape T) ->
         tget zero T idx
         = padded_at zero x h w (Z.to_nat (pad_h / 2)) (Z.to_nat (pad_w / 2)) idx.
Proof.
  intros Hs Hph Hpw. unfold pad_to_grid.
  destruct ((pad_h >? 0) || (pad_w >? 0)) eqn:Hpad.
  - unfold F_pad, grid_padding. rewrite Hs.
    pose proof (Z.div_pos pad_h 2 Hph ltac:(lia)).
    pose proof (Z.div_pos pad_w 2 Hpw ltac:(lia)).
    assert (pad_h / 2 <= pad_h) by (apply Z.div_le_upper_bound; lia).
    assert (pad_w / 2 <= pad_w) by (apply Z.div_le_upper_bound; lia).
    replace ((pad_w / 2 <? 0) || (pad_w - pad_w / 2 <? 0)
             || (pad_h / 2 <? 0) || (pad_h - pad_h / 2 <? 0)) with false
      by (symmetry; rewrite !orb_false_iff, !Z.ltb_ge; lia).
    eexists; split; [reflexivity|]. split; [intros _; apply wf_build|].
    split.
    + cbn [shape build]. repeat f_equal; lia.
    + intros idx Hb. cbn [shape build] in Hb.
      rewrite build_get by exact Hb. reflexivity.
  - apply orb_false_iff in Hpad. destruct Hpad as [H1 H2].
    assert (pad_h = 0) by lia. assert (pad_w = 0) by lia. subst.
    exists x. split; [reflexivity|]. split; [tauto|].
    split.
    + rewrite Hs, !Z.add_0_r, !Nat2Z.id. reflexivity.
    + intros idx Hb. rewrite Hs in Hb. four_indices idx Hb.
      destruct Hb as (Hi & Hj & Hy & Hx & _).
      change (Z.to_nat (0 / 2)) with 0%nat.
      cbn [padded_at Nat.add Nat.leb andb].
      rewrite !Nat.sub_0_r.
      destruct (Nat.ltb_spec y h); [|lia].
      destruct (Nat.ltb_spec x0 w); [|lia]. reflexivity.
Qed.

Lemma crop_ok (T : tensor A) (n c h w : nat) (pad_h pad_w : Z) :
  0 <= pad_h -> 0 <= pad_w ->
  shape T = [n; c; Z.to_nat (Z.of_nat h + pad_h);
                   Z.to_nat (Z.of_nat w + pad_w)] ->
  exists R,
    crop zero T pad_h pad_w (Z.of_nat h) (Z.of_nat w) = Ok R
    /\ (wf T -> wf R)
    /\ shape R = [n; c; h; w]
    /\ forall i j y x0, (i < n)%nat -> (j < c)%nat -> (y < h)%nat ->
         (x0 < w)%nat ->
         tget zero R [i; j; y; x0]
         = tget zero T [i; j; (Z.to_nat (pad_h / 2) + y)%nat;
                              (Z.to_nat (pad_w / 2) + x0)%nat].
Proof.
  intros Hph Hpw Hs. unfold crop.
  destruct ((pad_h >? 0) || (pad_w >? 0)) eqn:Hpad.
  - unfold slice_hw. rewrite Hs.
    pose proof (Z.div_pos pad_h 2 Hph ltac:(lia)).
    pose proof (Z.div_pos pad_w 2 Hpw ltac:(lia)).
    assert (pad_h / 2 <= pad_h) by (apply Z.div_le_upper_bound; lia).
    assert (pad_w / 2 <= pad_w) by (apply Z.div_le_upper_bound; lia).
    assert (B : forall p q d, 0 <= p -> p + q <= d -> 0 <= q ->
                  slice_bound p d = p /\ slice_bound (p + q) d = p + q).
    { intros p q d ? ? ?. unfold slice_bound.
      destruct (Z.ltb_spec p 0); [lia|].
      destruct (Z.ltb_spec (p + q) 0); lia. }
    destruct (B (pad_h / 2) (Z.of_nat h)
                (Z.of_nat (Z.to_nat (Z.of_nat h + pad_h)))) as [By0 By1];
      try lia.
    destruct (B (pad_w / 2) (Z.of_nat w)
                (Z.of_nat (Z.to_nat (Z.of_nat w + pad_w)))) as [Bx0 Bx1];
      try lia.
    rewrite By0, By1, Bx0, Bx1.
    replace (pad_h / 2 + Z.of_nat h - pad_h / 2) with (Z.of_nat h) by lia.
    replace (pad_w / 2 + Z.of_nat w - pad_w / 2) with (Z.of_nat w) by lia.
    rewrite !Nat2Z.id.
    eexists; split; [reflexivity|]. split; [intros _; apply wf_build|].
    split; [reflexivity|].
    intros i j y x0 Hi Hj Hy Hx.
    rewrite build_get by (cbn; lia). reflexivity.
  - apply orb_false_iff in Hpad. destruct Hpad as [H1 H2].
    assert (pad_h = 0) by lia. assert (pad_w = 0) by lia. subst.
    rewrite !Z.add_0_r, !Nat2Z.id in Hs.
    exists T. split; [reflexivity|]. split; [tauto|].
    split; [assumption|]. intros. reflexivity.
Qed.


(** ** The interlaced pipeline under identity attention *)

Lemma retag_shape (T : tensor A) (s : list nat) :
  shape T = s -> mkTensor s (data T) = T.
Proof. destruct T; cbn; intros <-; reflexivity. Qed.



(** ** Shapes through the head *)

Lemma interlace_shape (self : ISAHead A) (x : tensor A)
    (n c h w : nat) (P_h P_w : Z) :
  shape x = [n; c; h; w] ->
  (0 < n)%nat -> (0 < c)%nat -> (0 < h)%nat -> (0 < w)%nat ->
  down_factor self = [P_h; P_w] -> 1 <= P_h -> 1 <= P_w ->
  shape_preserving (global_relation self) c ->
  shape_preserving (local_relation self) c ->
  exists r, interlace zero self x = Ok r /\ shape r = [n; c; h; w].
Proof.
  intros Hs Hn Hc Hh Hw Hdf HPh HPw Hg Hl.
  unfold interlace, shapeZ. rewrite Hs, Hdf. cbn [map].
  destruct (ceil_div_pos (Z.of_nat h) P_h) as (Q_h & EQh & BQh); [lia|].
  destruct (ceil_div_pos (Z.of_nat w) P_w) as (Q_w & EQw & BQw); [lia|].
  rewrite EQh, EQw. cbn [bind].
  assert (HQh : 0 < Q_h) by nia. assert (HQw : 0 < Q_w) by nia.
  remember (Z.to_nat Q_h) as qh. remember (Z.to_nat P_h) as ph.
  remember (Z.to_nat Q_w) as qw. remember (Z.to_nat P_w) as pw.
  assert (Q_h = Z.of_nat qh) by lia. assert (P_h = Z.of_nat ph) by lia.
  assert (Q_w = Z.of_nat qw) by lia. assert (P_w = Z.of_nat pw) by lia.
  subst Q_h P_h Q_w P_w.
  remember (Z.of_nat qh * Z.of_nat ph - Z.of_nat h) as pad_h eqn:Eh.
  remember (Z.of_nat qw * Z.of_nat pw - Z.of_nat w) as pad_w eqn:Ew.
  destruct (pad_to_grid_ok x n c h w pad_h pad_w) as (T & ET & _ & ST & _);
    try assumption; try lia.
  rewrite ET. cbn [bind].
  assert (ST' : shape T = [n; c; qh * ph; qw * pw]%nat)
    by (rewrite ST; repeat f_equal; lia).
  rewrite (to_global_layout_ok T n c qh ph qw pw) by (assumption || lia).
  cbn [bind]. destruct (Hg (n * ph * pw)%nat qh qw
                          (regroup zero [n; c; qh; ph; qw; pw]
                             [0; 3; 5; 1; 2; 4]%nat (data T))) as [dg Eg].
  rewrite Eg. cbn [bind].
  rewrite (to_local_layout_ok _ n c qh ph qw pw) by (reflexivity || lia).
  cbn [bind]. destruct (Hl (n * qh * qw)%nat ph pw
                          (regroup zero [n; ph; pw; c; qh; qw]
                             [0; 4; 5; 3; 1; 2]%nat dg)) as [dl El].
  cbn [data]. rewrite El. cbn [bind].
  rewrite (recompose_ok _ n c qh ph qw pw) by (reflexivity || lia).
  cbn [bind data].
  match goal with |- exists r, crop zero ?F _ _ _ _ = _ /\ _ =>
    destruct (crop_ok F n c h w pad_h pad_w) as (R & ER & _ & SR & _);
      [ lia | lia | cbn [shape]; repeat f_equal; lia | ]
  end.
  exists R. split; assumption.
Qed.


Lemma attention_shape_preserving (ci ch : Z) (w : tensor A -> list A) :
  0 <= ci -> shape_preserving (SelfAttentionBlock ci ch w) (Z.to_nat ci).
Proof.
  intros Hci b h wd d. eexists. cbn.
  rewrite Z2Nat.id, Z.eqb_refl by assumption. reflexivity.
Qed.

Lemma attention_identity (ci ch : Z) :
  0 <= ci -> identity_on (SelfAttentionBlock ci ch (@data A)) (Z.to_nat ci).
Proof.
  intros Hci b h wd d. cbn.
  rewrite Z2Nat.id, Z.eqb_refl by assumption. reflexivity.
Qed.

Lemma py_index_last {X : Type} (l : list X) (d : X) :
  l <> [] -> py_index l (-1) = Ok (last l d).
Proof.
  intros Hl. destruct (exists_last Hl) as (l' & a & ->).
  rewrite last_last. unfold py_index. rewrite length_app. cbn [length].
  change (-1 <? 0) with true. cbv iota.
  destruct (Z.ltb_spec (-1 + Z.of_nat (length l' + 1)) 0); [lia|].
  destruct (Z.leb_spec (Z.of_nat (length l' + 1))
              (-1 + Z.of_nat (length l' + 1))); [lia|].
  cbn [orb].
  replace (Z.to_nat (-1 + Z.of_nat (length l' + 1))) with (length l') by lia.
  rewrite nth_error_app2, Nat.sub_diag by lia. reflexivity.
Qed.

(** Closed form of [ISAHead.__init__] on a non-empty channel list. *)
Lemma ISAHead_init_eq (num_classes c0 : Z) (rest : list Z) (isa : Z)
    (df : list Z) (en : bool) (th : Weights A) :
  ISAHead_init num_classes (c0 :: rest) isa df en th
  = if (4 <=? last (c0 :: rest) 0) && (0 <? isa) && (0 <? num_classes)
    then Ok (built_head num_classes (last (c0 :: rest) 0) isa df en th)
    else Err AssertionError.
Proof.
  unfold ISAHead_init.
  rewrite (py_index_last (c0 :: rest) 0) by discriminate. cbn [bind].
  set (c := last (c0 :: rest) 0).
  unfold ConvBNReLU_init, Conv2D_init, SelfAttentionBlock_init.
  destruct (Z.leb_spec 4 c) as [Hc|Hc].
  - assert (H4 : 0 < c / 4) by (Z.div_mod_to_equations; lia).
    replace (0 <? c) with true by (symmetry; apply Z.ltb_lt; lia).
    replace (0 <? c / 4) with true by (symmetry; apply Z.ltb_lt; lia).
    replace (0 <? c / 4 * 2) with true by (symmetry; apply Z.ltb_lt; lia).
    cbn [andb bind].
    destruct (0 <? isa); cbn [andb bind]; [|reflexivity].
    change (0 <? 1024) with true. change (0 <? 256) with true.
    destruct (0 <? num_classes); cbn [andb bind]; reflexivity.
  - replace (0 <? c / 4) with false
      by (symmetry; apply Z.ltb_ge; Z.div_mod_to_equations; lia).
    rewrite andb_false_r. reflexivity.
Qed.

Lemma ISAHead_init_inv (num_classes : Z) (in_chs : list Z) (isa : Z)
    (df : list Z) (en : bool) (th : Weights A) (self : ISAHead A) :
  ISAHead_init num_classes in_chs isa df en th = Ok self ->
  in_chs <> [] /\ self = built_head num_classes (last in_chs 0) isa df en th.
Proof.
  intros H. destruct in_chs as [|c0 rest]; [discriminate H|].
  split; [discriminate|].
  rewrite ISAHead_init_eq in H.
  destruct ((4 <=? last (c0 :: rest) 0) && (0 <? isa) && (0 <? num_classes));
    [|discriminate H].
  injection H as <-. reflexivity.
Qed.

Lemma fuse_shape (num_classes c isa P_h P_w : Z) (en : bool) (th : Weights A)
    (C4 : tensor A) (n h w : nat) :
  shape C4 = [n; Z.to_nat c; h; w] -> 4 <= c ->
  (0 < n)%nat -> (0 < h)%nat -> (0 < w)%nat -> 1 <= P_h -> 1 <= P_w ->
  exists fused,
    fuse zero (built_head num_classes c isa [P_h; P_w] en th) C4 = Ok fused
    /\ shape fused = [n; Z.to_nat (c / 4); h; w].
Proof.
  intros Hs Hc Hn Hh Hw HPh HPw.
  assert (Hi : 1 <= c / 4) by (apply Z.div_le_lower_bound; lia).
  unfold fuse. cbn [built_head in_conv out_conv apply_layer].
  rewrite Hs, Z2Nat.id, Z.eqb_refl by lia. cbn [bind].
  destruct (interlace_shape
              (built_head num_classes c isa [P_h; P_w] en th)
              (mkTensor [n; Z.to_nat (c / 4); h; w] (w_in_conv th C4))
              n (Z.to_nat (c / 4)) h w P_h P_w)
    as (r & Er & Sr); try reflexivity; try lia;
    try (apply attention_shape_preserving; lia).
  cbn [built_head] in Er. rewrite Er. cbn [bind].
  unfold concat1. rewrite Sr. cbn [shape].
  rewrite !Nat.eqb_refl. cbn [andb bind build shape].
  replace (Z.of_nat (Z.to_nat (c / 4) + Z.to_nat (c / 4)) =? c / 4 * 2)
    with true by (symmetry; apply Z.eqb_eq; lia).
  eexists; split; reflexivity.
Qed.

Lemma cls_shape (inter nc : Z) (wd wc : tensor A -> list A)
    (t : tensor A) (n h w : nat) :
  shape t = [n; Z.to_nat inter; h; w] -> 0 <= inter ->
  (0 < h)%nat -> (0 < w)%nat ->
  exists o,
    apply_layer (Sequential [Dropout2D 10 wd; Conv2D inter nc 1 wc]) t = Ok o
    /\ shape o = [n; Z.to_nat nc; h; w].
Proof.
  intros Hs Hi Hh Hw. cbn [apply_layer]. rewrite Hs. cbn [bind shape].
  rewrite Z2Nat.id, Z.eqb_refl by assumption.
  destruct (Z.leb_spec 1 (Z.of_nat h)); [|lia].
  destruct (Z.leb_spec 1 (Z.of_nat w)); [|lia].
  cbn [andb Z.leb Z.compare Pos.compare Pos.compare_cont bind].
  eexists; split; [reflexivity|]. cbn [shape]. repeat f_equal; lia.
Qed.

Lemma aux_shape (nc : Z) (wa wd wc : tensor A -> list A)
    (t : tensor A) (n h w : nat) :
  shape t = [n; 1024%nat; h; w] -> (0 < h)%nat -> (0 < w)%nat ->
  exists o,
    apply_layer (Sequential [ConvBNReLU 1024 256 3 wa; Dropout2D 10 wd;
                             Conv2D 256 nc 1 wc]) t = Ok o
    /\ shape o = [n; Z.to_nat nc; h; w].
Proof.
  intros Hs Hh Hw. cbn [apply_layer]. rewrite Hs.
  change (Z.of_nat 1024 =? 1024) with true. cbn [bind shape].
  change (Z.of_nat (Z.to_nat 256) =? 256) with true.
  destruct (Z.leb_spec 1 (Z.of_nat h)); [|lia].
  destruct (Z.leb_spec 1 (Z.of_nat w)); [|lia].
  cbn [andb Z.leb Z.compare Pos.compare Pos.compare_cont bind].
  eexists; split; [reflexivity|]. cbn [shape]. repeat f_equal; lia.
Qed.

Lemma aux_mismatch (nc : Z) (wa wd wc : tensor A -> list A)
    (t : tensor A) (n c h w : nat) :
  shape t = [n; c; h; w] -> c <> 1024%nat ->
  apply_layer (Sequential [ConvBNReLU 1024 256 3 wa; Dropout2D 10 wd;
                           Conv2D 256 nc 1 wc]) t = Err InvalidArgument.
Proof.
  intros Hs Hc. cbn [apply_layer]. rewrite Hs.
  destruct (Z.eqb_spec (Z.of_nat c) 1024); [lia|]. reflexivity.
Qed.


(** ** The claims about padding and the two layouts *)

Lemma pad_positive_iff (a b q : Z) :
  0 < b -> 0 <= q * b - a < b -> (0 < q * b - a <-> a mod b <> 0).
Proof.
  intros Hb Hq.
  pose proof (Z.div_mod a b ltac:(lia)) as E.
  pose proof (Z.mod_pos_bound a b Hb) as B.
  split.
  - intros Hpos Hm. rewrite Hm in E.
    assert (q = a / b) by nia. subst q. nia.
  - intros Hm. assert (q <> a / b) by nia. nia.
Qed.

(** C3.  The grid and the padding: Qh = ceil(H / Ph) and Qw = ceil(W / Pw);
    the map is padded exactly when H is not a multiple of Ph or W is not a
    multiple of Pw; the padded map has height Qh * Ph and width Qw * Pw,
    holds the input shifted by the floor half of each deficit and zero on
    the border; the deficit is split floor half first (top, left) and
    ceiling half second (bottom, right).  For H = 13 and Ph = 8: Qh = 2,
    pad_h = 3, one row on top and two at the bottom.  The map is a
    well-formed, non-empty one, and the extents and the group factor are
    below 2^53, where the float quotient of line 129 has the exact
    ceiling. *)
Theorem pad_to_grid_spec (x : tensor A) (n c h w : nat) (P_h P_w : Z) :
  wf x -> shape x = [n; c; h; w] ->
  (0 < n)%nat -> (0 < c)%nat -> (0 < h)%nat -> (0 < w)%nat ->
  Z.of_nat h < 2 ^ 53 -> Z.of_nat w < 2 ^ 53 ->
  1 <= P_h < 2 ^ 53 -> 1 <= P_w < 2 ^ 53 ->
  exists Q_h Q_w T,
    ceil_div (Z.of_nat h) P_h = Ok Q_h
    /\ ceil_div (Z.of_nat w) P_w = Ok Q_w
    /\ (Q_h - 1) * P_h < Z.of_nat h <= Q_h * P_h
    /\ (Q_w - 1) * P_w < Z.of_nat w <= Q_w * P_w
    /\ ((Q_h * P_h - Z.of_nat h >? 0) || (Q_w * P_w - Z.of_nat w >? 0) = true
        <-> Z.of_nat h mod P_h <> 0 \/ Z.of_nat w mod P_w <> 0)
    /\ pad_to_grid zero x (Q_h * P_h - Z.of_nat h) (Q_w * P_w - Z.of_nat w)
       = Ok T
    /\ shapeZ T = [Z.of_nat n; Z.of_nat c; Q_h * P_h; Q_w * P_w]
    /\ wf T
    /\ (forall idx, in_bounds idx (shape T) ->
          tget zero T idx
          = padded_at zero x h w
              (Z.to_nat ((Q_h * P_h - Z.of_nat h) / 2))
              (Z.to_nat ((Q_w * P_w - Z.of_nat w) / 2)) idx)
    /\ (forall pad_h pad_w, 0 <= pad_h -> 0 <= pad_w ->
          grid_padding pad_h pad_w
          = [pad_w / 2; (pad_w + 1) / 2; pad_h / 2; (pad_h + 1) / 2])
    /\ ceil_div 13 8 = Ok 2
    /\ 2 * 8 - 13 = 3
    /\ grid_padding 3 0 = [0; 0; 1; 2].
Proof.
  intros Hwf Hs _ _ _ _ _ _ [HPh _] [HPw _].
  destruct (ceil_div_pos (Z.of_nat h) P_h) as (Q_h & EQh & BQh); [lia|].
  destruct (ceil_div_pos (Z.of_nat w) P_w) as (Q_w & EQw & BQw); [lia|].
  destruct (pad_to_grid_ok x n c h w (Q_h * P_h - Z.of_nat h)
              (Q_w * P_w - Z.of_nat w)) as (T & ET & WT & ST & GT);
    try assumption; try lia.
  specialize (WT Hwf).
  exists Q_h, Q_w, T.
  repeat match goal with |- _ /\ _ => split end;
    try assumption; try reflexivity; try lia.
  - rewrite orb_true_iff, !Z.gtb_ltb, !Z.ltb_lt.
    rewrite (pad_positive_iff (Z.of_nat h) P_h Q_h) by lia.
    rewrite (pad_positive_iff (Z.of_nat w) P_w Q_w) by lia.
    reflexivity.
  - unfold shapeZ. rewrite ST. cbn [map]. repeat f_equal; lia.
  - intros pad_h pad_w Hh Hw. unfold grid_padding.
    replace (pad_w - pad_w / 2) with ((pad_w + 1) / 2)
      by (Z.div_mod_to_equations; lia).
    replace (pad_h - pad_h / 2) with ((pad_h + 1) / 2)
      by (Z.div_mod_to_equations; lia).
    reflexivity.
Qed.


(** C4.  The two layouts.  From a padded map of shape
    (N, C', Qh*Ph, Qw*Pw) the global rearrangement gives shape
    (N*Ph*Pw, C', Qh, Qw): the offsets (a, e) inside a group are folded
    into the batch index (i*Ph + a)*Pw + e, and position (y, x) of that
    slice is the element of group (y, x) at offset (a, e).  From any map of
    that shape the local rearrangement gives shape (N*Qh*Qw, C', Ph, Pw):
    the group (y, x) is folded into the batch index (i*Qh + y)*Qw + x. *)
Theorem layouts_fold_into_batch (t : tensor A) (n c qh ph qw pw : nat) :
  (0 < n)%nat -> (0 < c)%nat -> (0 < qh)%nat -> (0 < ph)%nat ->
  (0 < qw)%nat -> (0 < pw)%nat ->
  shape t = [n; c; qh * ph; qw * pw]%nat ->
  (exists g,
     to_global_layout zero t (Z.of_nat n) (Z.of_nat c) (Z.of_nat qh)
       (Z.of_nat ph) (Z.of_nat qw) (Z.of_nat pw) = Ok g
     /\ shape g = [n * ph * pw; c; qh; qw]%nat
     /\ forall i j y a x e,
          (i < n)%nat -> (j < c)%nat -> (y < qh)%nat -> (a < ph)%nat ->
          (x < qw)%nat -> (e < pw)%nat ->
          tget zero g [(i * ph + a) * pw + e; j; y; x]%nat
          = tget zero t [i; j; y * ph + a; x * pw + e]%nat)
  /\ (forall g',
        shape g' = [n * ph * pw; c; qh; qw]%nat ->
        exists l,
          to_local_layout zero g' (Z.of_nat n) (Z.of_nat c) (Z.of_nat qh)
            (Z.of_nat ph) (Z.of_nat qw) (Z.of_nat pw) = Ok l
          /\ shape l = [n * qh * qw; c; ph; pw]%nat
          /\ forall i j y a x e,
               (i < n)%nat -> (j < c)%nat -> (y < qh)%nat -> (a < ph)%nat ->
               (x < qw)%nat -> (e < pw)%nat ->
               tget zero l [(i * qh + y) * qw + x; j; a; e]%nat
               = tget zero g' [(i * ph + a) * pw + e; j; y; x]%nat).
Proof.
  intros Hn Hc Hqh Hph Hqw Hpw Hs. split.
  - eexists. split; [apply to_global_layout_ok; assumption|].
    split; [reflexivity|].
    intros i j y a x e Hi Hj Hy Ha Hx He.
    unfold tget. cbn [shape data]. rewrite Hs.
    replace (ravel [n * ph * pw; c; qh; qw]
               [(i * ph + a) * pw + e; j; y; x])%nat
      with (ravel (permute 0%nat [0; 3; 5; 1; 2; 4]%nat
                     [n; c; qh; ph; qw; pw]) [i; a; e; j; y; x])
      by (cbn [permute map nth ravel numel fold_right]; ring).
    rewrite regroup_nth by (cbn; lia).
    f_equal. cbn [unpermute length seq map index_of Nat.eqb nth ravel numel
                  fold_right]. ring.
  - intros g' Hg. eexists.
    split; [apply to_local_layout_ok; assumption|].
    split; [reflexivity|].
    intros i j y a x e Hi Hj Hy Ha Hx He.
    unfold tget. cbn [shape data]. rewrite Hg.
    replace (ravel [n * qh * qw; c; ph; pw]
               [(i * qh + y) * qw + x; j; a; e])%nat
      with (ravel (permute 0%nat [0; 4; 5; 3; 1; 2]%nat
                     [n; ph; pw; c; qh; qw]) [i; y; x; j; a; e])
      by (cbn [permute map nth ravel numel fold_right]; ring).
    rewrite regroup_nth by (cbn; lia).
    f_equal. cbn [unpermute length seq map index_of Nat.eqb nth ravel numel
                  fold_right]. ring.
Qed.


(** ** The claims about the head *)

(** C2 (as the code has it).  [ISAHead.__init__] checks neither the
    divisibility of the channel count by 4 nor the group factor.  For a
    non-empty channel list whose last channel count is at least 4, and
    positive [num_classes] and [isa_channels], it returns the head, with
    [inter_channels] the floor of a quarter of that channel count and the
    group factor stored as given, whatever its entries.  It raises only
    when a layer constructor is handed a channel count that is not
    positive (the last channel count below 4, or [num_classes] or
    [isa_channels] not positive), an [AssertionError], and for an empty
    channel list, an [IndexError]. *)
Theorem ISAHead_init_outcome (num_classes isa : Z) (df : list Z)
    (en : bool) (th : Weights A) :
  (forall c0 rest,
     (4 <= last (c0 :: rest) 0 -> 0 < isa -> 0 < num_classes ->
      ISAHead_init num_classes (c0 :: rest) isa df en th
      = Ok (built_head num_classes (last (c0 :: rest) 0) isa df en th))
     /\ (last (c0 :: rest) 0 < 4 \/ isa <= 0 \/ num_classes <= 0 ->
         ISAHead_init num_classes (c0 :: rest) isa df en th
         = Err AssertionError))
  /\ ISAHead_init num_classes [] isa df en th = Err IndexError.
Proof.
  split; [|reflexivity].
  intros c0 rest. rewrite ISAHead_init_eq.
  destruct (Z.leb_spec 4 (last (c0 :: rest) 0));
    destruct (Z.ltb_spec 0 isa); destruct (Z.ltb_spec 0 num_classes);
    cbn [andb]; split; intros; try reflexivity; lia.
Qed.


(** C9.  The auxiliary branch: whatever channel list the head is built
    from, its first convolution takes 1024 channels; a lower-stage map with
    1024 channels goes through, and with any other channel count the
    auxiliary convolution refuses it and the forward evaluation fails. *)
Theorem auxiliary_needs_1024 (num_classes isa : Z) (in_chs df : list Z)
    (th : Weights A) (self : ISAHead A)
    (C3 C4 : tensor A) (n c h w : nat) :
  ISAHead_init num_classes in_chs isa df true th = Ok self ->
  shape C3 = [n; c; h; w] -> (0 < h)%nat -> (0 < w)%nat ->
  aux self = Sequential [ConvBNReLU 1024 256 3 (w_aux_conv th);
                         Dropout2D 10 (w_aux_dropout th);
                         Conv2D 256 num_classes 1 (w_aux_cls th)]
  /\ (c = 1024%nat ->
      exists auxout, apply_layer (aux self) C3 = Ok auxout
                     /\ shape auxout = [n; Z.to_nat num_classes; h; w])
  /\ (c <> 1024%nat ->
      apply_layer (aux self) C3 = Err InvalidArgument
      /\ exists e, ISAHead_forward zero self [C3; C4] = Err e).
Proof.
  intros Hinit Hs Hh Hw.
  destruct (ISAHead_init_inv _ _ _ _ _ _ _ Hinit) as [_ ->].
  split; [reflexivity|]. split.
  - intros ->. cbn [built_head aux]. now apply aux_shape.
  - intros Hc.
    assert (Ea : apply_layer
                   (aux (built_head num_classes (last in_chs 0) isa df true th))
                   C3 = Err InvalidArgument)
      by (cbn [built_head aux]; now apply (aux_mismatch _ _ _ _ _ n c h w)).
    split; [exact Ea|].
    unfold ISAHead_forward.
    destruct (fuse zero _ C4) as [feat|e]; [|exists e; reflexivity].
    cbn [bind].
    destruct (apply_layer (cls _) feat) as [output|e];
      [|exists e; reflexivity].
    cbn [bind]. change (enable_auxiliary_loss (built_head _ _ _ _ true _))
      with true. cbv iota.
    rewrite Ea. exists InvalidArgument. reflexivity.
Qed.


(** ** The claims about the network *)

Context (bilinear : tensor A -> list Z -> bool -> list A).
Context (load_entire_model : ISANet A -> string -> result (ISANet A)).

Lemma py_index_err {X : Type} (l : list X) (i : Z) (e : exn) :
  py_index l i = Err e -> e = IndexError.
Proof.
  unfold py_index.
  destruct ((_ <? 0) || (_ <=? _)); [congruence|].
  destruct (nth_error l _); congruence.
Qed.

Lemma py_index_out_of_range {X : Type} (l : list X) (i : Z) :
  i < - Z.of_nat (length l) \/ Z.of_nat (length l) <= i ->
  py_index l i = Err IndexError.
Proof.
  intros H. unfold py_index.
  destruct (Z.ltb_spec i 0).
  - destruct (Z.ltb_spec (i + Z.of_nat (length l)) 0); [reflexivity|lia].
  - destruct (Z.ltb_spec i 0); [lia|].
    destruct (Z.leb_spec (Z.of_nat (length l)) i); [reflexivity|lia].
Qed.

Lemma py_index_in_range {X : Type} (l : list X) (i : Z) :
  - Z.of_nat (length l) <= i < Z.of_nat (length l) ->
  exists v, py_index l i = Ok v.
Proof.
  intros H. unfold py_index.
  set (j := if i <? 0 then i + Z.of_nat (length l) else i).
  assert (Hj : 0 <= j < Z.of_nat (length l))
    by (subst j; destruct (Z.ltb_spec i 0); lia).
  destruct (Z.ltb_spec j 0); [lia|].
  destruct (Z.leb_spec (Z.of_nat (length l)) j); [lia|]. cbn [orb].
  destruct (nth_error l (Z.to_nat j)) eqn:E; [eauto|].
  apply nth_error_None in E. lia.
Qed.

Lemma select_missing {X : Type} (l : list X) (idx : list Z) :
  Exists (fun i => i < - Z.of_nat (length l) \/ Z.of_nat (length l) <= i) idx ->
  map_result (py_index l) idx = Err IndexError.
Proof.
  induction 1 as [i rest Hi | i rest _ IH]; cbn [map_result].
  - now rewrite py_index_out_of_range.
  - destruct (py_index l i) as [v|e] eqn:E; cbn [bind].
    + now rewrite IH.
    + now rewrite (py_index_err _ _ _ E).
Qed.

Lemma select_present {X : Type} (l : list X) (idx : list Z) :
  Forall (fun i => - Z.of_nat (length l) <= i < Z.of_nat (length l)) idx ->
  exists vs, map_result (py_index l) idx = Ok vs /\ length vs = length idx.
Proof.
  induction 1 as [|i rest Hi _ (vs & Evs & Lvs)]; cbn [map_result].
  - exists []. split; reflexivity.
  - destruct (py_index_in_range l i Hi) as [v Ev].
    rewrite Ev, Evs. cbn [bind]. exists (v :: vs).
    split; [reflexivity|]. cbn [length]. now rewrite Lvs.
Qed.

Lemma ISANet_init_inv (num_classes : Z)
    (bb : tensor A -> result (list (tensor A))) (fc idx : list Z) (isa : Z)
    (df : list Z) (en align : bool) (th : Weights A) (net : ISANet A) :
  ISANet_init load_entire_model num_classes bb fc idx isa df en align None th
  = Ok net ->
  exists in_chs,
    map_result (py_index fc) idx = Ok in_chs
    /\ net = {| backbone := bb;
                backbone_indices := idx;
                head := built_head num_classes (last in_chs 0) isa df en th;
                align_corners := align;
                pretrained := None |}.
Proof.
  unfold ISANet_init. intros H.
  destruct (map_result (py_index fc) idx) as [in_chs|] eqn:E;
    [|discriminate H].
  cbn [bind] in H.
  destruct (ISAHead_init num_classes in_chs isa df en th) as [hd|] eqn:Eh;
    [|discriminate H].
  destruct (ISAHead_init_inv _ _ _ _ _ _ _ Eh) as [_ ->].
  cbn [bind init_weight pretrained] in H. injection H as <-.
  exists in_chs. split; reflexivity.
Qed.

(** C5.  End to end: an image of shape (1, 3, 512, 512), a backbone with
    channel counts [256, 512, 1024, 2048], stages (2, 3), group factor
    (8, 8) and 19 classes.  The primary score map comes back at the input
    resolution, shape (1, 19, 512, 512), and so does the auxiliary one when
    the auxiliary branch is on. *)
Theorem isanet_end_to_end_shapes
    (bb : tensor A -> result (list (tensor A))) (isa : Z) (en align : bool)
    (th : Weights A) (net : ISANet A)
    (x f0 f1 C3 C4 : tensor A) (h3 w3 h4 w4 : nat) :
  ISANet_init load_entire_model 19 bb [256; 512; 1024; 2048] [2; 3] isa
    [8; 8] en align None th = Ok net ->
  shape x = [1; 3; 512; 512]%nat ->
  bb x = Ok [f0; f1; C3; C4] ->
  shape C3 = [1; 1024; h3; w3]%nat -> (0 < h3)%nat -> (0 < w3)%nat ->
  shape C4 = [1; 2048; h4; w4]%nat -> (0 < h4)%nat -> (0 < w4)%nat ->
  exists primary,
    shape primary = [1; 19; 512; 512]%nat
    /\ if en
       then exists auxiliary,
              ISANet_forward zero bilinear net x = Ok [primary; auxiliary]
              /\ shape auxiliary = [1; 19; 512; 512]%nat
       else ISANet_forward zero bilinear net x = Ok [primary].
Proof.
  intros Hinit Hx Hbb HC3 Hh3 Hw3 HC4 Hh4 Hw4.
  destruct (ISANet_init_inv _ _ _ _ _ _ _ _ _ _ Hinit) as (in_chs & E & ->).
  cbn in E. injection E as <-. cbn [last].
  unfold ISANet_forward.
  cbn [backbone backbone_indices head align_corners].
  rewrite Hbb. cbn [bind].
  replace (map_result (py_index [f0; f1; C3; C4]) [2; 3]) with (Ok [C3; C4])
    by reflexivity.
  cbn [bind]. unfold ISAHead_forward.
  destruct (fuse_shape 19 2048 isa 8 8 en th C4 1%nat h4 w4)
    as (fused & Ef & Sf); try assumption; try lia.
  rewrite Ef. cbn [bind].
  destruct (cls_shape (2048 / 4) 19 (w_cls_dropout th) (w_cls_conv th)
              fused 1%nat h4 w4) as (o & Eo & So); try assumption;
    try (apply Z.div_pos; lia).
  cbn [built_head cls aux enable_auxiliary_loss]. rewrite Eo. cbn [bind].
  unfold shapeZ. rewrite Hx. cbn [map skipn].
  destruct en.
  - destruct (aux_shape 19 (w_aux_conv th) (w_aux_dropout th) (w_aux_cls th)
                C3 1%nat h3 w3) as (a & Ea & Sa); try assumption.
    rewrite Ea. cbn [bind map_result]. unfold F_interpolate.
    rewrite So, Sa.
    change ((0 <? Z.of_nat 512) && (0 <? Z.of_nat 512)) with true.
    cbn [bind]. eexists. split; [|eexists; split; [reflexivity|]];
      reflexivity.
  - cbn [bind map_result]. unfold F_interpolate. rewrite So.
    change ((0 <? Z.of_nat 512) && (0 <? Z.of_nat 512)) with true.
    cbn [bind]. eexists. split; [|reflexivity]. reflexivity.
Qed.

(** C7 (as the code has it).  A missing stage: when a configured stage index is out of range of
    the list the backbone returns, the forward call raises [IndexError] at
    the selection; when all indices are in range but they are not two, the
    head raises [ValueError] at the unpacking.  The call returns the
    error: nothing is evaluated after it. *)
Theorem missing_stage_fails (net : ISANet A) (x : tensor A)
    (feats : list (tensor A)) :
  backbone net x = Ok feats ->
  (Exists (fun i => i < - Z.of_nat (length feats)
                    \/ Z.of_nat (length feats) <= i)
          (backbone_indices net) ->
   ISANet_forward zero bilinear net x = Err IndexError)
  /\ (Forall (fun i => - Z.of_nat (length feats) <= i
                       < Z.of_nat (length feats))
             (backbone_indices net) ->
      length (backbone_indices net) <> 2%nat ->
      ISANet_forward zero bilinear net x = Err ValueError).
Proof.
  intros Hbb. unfold ISANet_forward. rewrite Hbb. cbn [bind]. split.
  - intros H. now rewrite select_missing.
  - intros H Hlen.
    destruct (select_present feats _ H) as (vs & Evs & Lvs).
    rewrite Evs. cbn [bind]. unfold ISAHead_forward.
    destruct vs as [|C3 [|C4 [|? ?]]]; try reflexivity.
    cbn [length] in Lvs. congruence.
Qed.


Lemma map_result_length {X Y : Type} (f : X -> result Y) (l : list X) :
  forall ys, map_result f l = Ok ys -> length ys = length l.
Proof.
  induction l as [|x l IH]; intros ys H; cbn [map_result] in H.
  - injection H as <-. reflexivity.
  - destruct (f x) as [y|]; [|discriminate H]. cbn [bind] in H.
    destruct (map_result f l) as [ys'|]; [|discriminate H].
    cbn [bind] in H. injection H as <-. cbn [length]. f_equal. now apply IH.
Qed.

(** C6.  The auxiliary toggle.  A forward evaluation of the head that
    returns has unpacked two feature maps, and returns the primary score
    map alone when [enable_auxiliary_loss] is off, and the primary score
    map followed by the auxiliary one when it is on; the network returns
    as many upsampled maps: one, or two. *)
Theorem forward_auxiliary_toggle :
  (forall (self : ISAHead A) (feat_list outs : list (tensor A)),
     ISAHead_forward zero self feat_list = Ok outs ->
     exists C3 C4 feat output,
       feat_list = [C3; C4]
       /\ fuse zero self C4 = Ok feat
       /\ apply_layer (cls self) feat = Ok output
       /\ if enable_auxiliary_loss self
          then exists auxout,
                 apply_layer (aux self) C3 = Ok auxout
                 /\ outs = [output; auxout]
          else outs = [output])
  /\ (forall (net : ISANet A) (x : tensor A) (outs : list (tensor A)),
        ISANet_forward zero bilinear net x = Ok outs ->
        length outs
        = (if enable_auxiliary_loss (head net) then 2 else 1)%nat).
Proof.
  assert (Hhead : forall (self : ISAHead A) (feat_list outs : list (tensor A)),
             ISAHead_forward zero self feat_list = Ok outs ->
             exists C3 C4 feat output,
               feat_list = [C3; C4]
               /\ fuse zero self C4 = Ok feat
               /\ apply_layer (cls self) feat = Ok output
               /\ if enable_auxiliary_loss self
                  then exists auxout,
                         apply_layer (aux self) C3 = Ok auxout
                         /\ outs = [output; auxout]
                  else outs = [output]).
  { intros self feat_list outs H. unfold ISAHead_forward in H.
    destruct feat_list as [|C3 [|C4 [|? ?]]]; try discriminate H.
    destruct (fuse zero self C4) as [feat|] eqn:Ef; [|discriminate H].
    cbn [bind] in H.
    destruct (apply_layer (cls self) feat) as [output|] eqn:Ec;
      [|discriminate H].
    cbn [bind] in H.
    exists C3, C4, feat, output. repeat split; try assumption.
    destruct (enable_auxiliary_loss self).
    - destruct (apply_layer (aux self) C3) as [auxout|] eqn:Ea;
        [|discriminate H].
      cbn [bind] in H. injection H as <-.
      exists auxout. split; reflexivity.
    - injection H as <-. reflexivity. }
  split; [exact Hhead|].
  intros net x outs H. unfold ISANet_forward in H.
  destruct (backbone net x) as [feats|]; [|discriminate H]. cbn [bind] in H.
  destruct (map_result (py_index feats) (backbone_indices net)) as [sel|];
    [|discriminate H].
  cbn [bind] in H.
  destruct (ISAHead_forward zero (head net) sel) as [logits|] eqn:El;
    [|discriminate H].
  cbn [bind] in H. apply map_result_length in H. rewrite H.
  destruct (Hhead _ _ _ El) as (C3 & C4 & feat & output & _ & _ & _ & Hout).
  destruct (enable_auxiliary_loss (head net)).
  - destruct Hout as (auxout & _ & ->). reflexivity.
  - subst logits. reflexivity.
Qed.

End Facts.

(** ** [get_num_workers] *)

Lemma pyval_eqb_eq (a b : pyval) : pyval_eqb a b = true <-> a = b.
Proof.
  destruct a, b; cbn; split; intros H; try discriminate; try reflexivity.
  - apply String.eqb_eq in H. now subst.
  - injection H as ->. apply String.eqb_refl.
  - apply Z.eqb_eq in H. now subst.
  - injection H as ->. apply Z.eqb_refl.
Qed.

(** C10.  [get_num_workers] gives back every argument other than the
    string 'auto' unchanged; for 'auto' it returns [cpu_count // 2] when
    that is below 8 and 8 otherwise, that is [min(cpu_count // 2, 8)],
    which never exceeds 8. *)
Theorem get_num_workers_spec (cpu_count : Z) (num_workers : pyval) :
  (num_workers <> PyStr "auto" ->
   get_num_workers cpu_count num_workers = num_workers)
  /\ get_num_workers cpu_count (PyStr "auto")
     = PyInt (Z.min (cpu_count / 2) 8)
  /\ (cpu_count / 2 < 8 ->
      get_num_workers cpu_count (PyStr "auto") = PyInt (cpu_count / 2))
  /\ (8 <= cpu_count / 2 ->
      get_num_workers cpu_count (PyStr "auto") = PyInt 8)
  /\ Z.min (cpu_count / 2) 8 <= 8.
Proof.
  unfold get_num_workers. repeat split.
  - intros H. destruct (pyval_eqb num_workers (PyStr "auto")) eqn:E;
      [|reflexivity].
    apply pyval_eqb_eq in E. contradiction.
  - cbn. destruct (Z.ltb_spec (cpu_count / 2) 8); f_equal; lia.
  - intros H. cbn. destruct (Z.ltb_spec (cpu_count / 2) 8); [reflexivity|lia].
  - intros H. cbn. destruct (Z.ltb_spec (cpu_count / 2) 8); [lia|reflexivity].
  - lia.
Qed.

(** * Further properties of the code *)

(** ** Dictionaries and substrings *)

Lemma dict_get_set_same {V : Type} (k : string) (v : V) (d : dict V) :
  dict_get k (dict_set k v d) = Some v.
Proof.
  induction d as [|[k' v'] rest IH]; cbn [dict_set dict_get].
  - now rewrite String.eqb_refl.
  - destruct (String.eqb k' k) eqn:E; cbn [dict_get]; rewrite E; auto.
Qed.

Lemma dict_get_set_other {V : Type} (k k0 : string) (v : V) (d : dict V) :
  k0 <> k -> dict_get k0 (dict_set k v d) = dict_get k0 d.
Proof.
  intros Hk. induction d as [|[k' v'] rest IH]; cbn [dict_set dict_get].
  - destruct (String.eqb_spec k k0); [congruence|reflexivity].
  - destruct (String.eqb_spec k' k) as [->|Hne]; cbn [dict_get].
    + destruct (String.eqb_spec k k0); [congruence|reflexivity].
    + destruct (String.eqb k' k0); auto.
Qed.

Lemma prefix_app (sub s : string) :
  String.prefix sub s = true <-> exists b, s = (sub ++ b)%string.
Proof.
  revert sub. induction s as [|c' s IH]; intros [|c sub];
    cbn [String.prefix String.append].
  - split; [intros _; exists EmptyString; reflexivity | reflexivity].
  - split; [discriminate | intros [b Hb]; discriminate Hb].
  - split; [intros _; exists (String c' s); reflexivity | reflexivity].
  - destruct (Ascii.ascii_dec c c') as [->|Hne].
    + rewrite IH. split; intros [b Hb]; exists b.
      * now rewrite Hb.
      * now injection Hb.
    + split; [discriminate|]. intros [b Hb]. injection Hb as Hc _.
      congruence.
Qed.

(** [contains] is the substring test. *)
Lemma contains_spec (sub s : string) :
  contains sub s = true <-> exists a b, s = (a ++ sub ++ b)%string.
Proof.
  induction s as [|c s IH]; cbn [contains]; rewrite orb_true_iff, prefix_app.
  - split.
    + intros [[b Hb]|H]; [|discriminate]. exists EmptyString, b. exact Hb.
    + intros ([|c a] & b & H); [left; exists b; exact H|discriminate H].
  - rewrite IH. split.
    + intros [[b Hb]|(a & b & H)].
      * exists EmptyString, b. exact Hb.
      * exists (String c a), b. cbn [String.append]. now rewrite H.
    + intros ([|c' a] & b & H).
      * left. exists b. exact H.
      * right. cbn [String.append] in H. injection H as _ H.
        exists a, b. exact H.
Qed.

(** ** [get_environ_info] *)

Section EnvFacts.

Variable int_of_str : string -> result Z.

Lemma cpu_num_after_clear (os_environ : dict string) :
  cpu_num int_of_str
    (dict_set "CUDA_VISIBLE_DEVICES" EmptyString os_environ)
  = cpu_num int_of_str os_environ.
Proof. unfold cpu_num. now rewrite dict_get_set_other by discriminate. Qed.

(** Closed form of the call: the error or the dictionary, and the
    environment left behind. *)
Lemma get_environ_info_eq (rt : Runtime) (os_environ : dict string) :
  get_environ_info int_of_str rt os_environ
  = (match cpu_num int_of_str os_environ with
     | Err e => Err e
     | Ok n =>
         Ok [("place"%string,
               PyStr (if gpu_place rt then "gpu" else "cpu"));
             ("num"%string,
               PyInt (if gpu_place rt then nranks rt else n))]
     end,
     if is_compiled_with_cuda rt && negb (gpu_place rt)
     then dict_set "CUDA_VISIBLE_DEVICES" EmptyString os_environ
     else os_environ).
Proof.
  destruct rt as [compiled device n].
  unfold get_environ_info, gpu_place.
  cbn [is_compiled_with_cuda get_device nranks].
  destruct compiled; cbn [andb negb].
  - destruct (contains "gpu" device); cbn [andb negb].
    + destruct (Z.eqb_spec n 0) as [->|Hn]; cbn [negb].
      * rewrite cpu_num_after_clear.
        destruct (cpu_num int_of_str os_environ); reflexivity.
      * destruct (cpu_num int_of_str os_environ); reflexivity.
    + cbn [Z.eqb negb]. rewrite cpu_num_after_clear.
      destruct (cpu_num int_of_str os_environ); reflexivity.
  - destruct (cpu_num int_of_str os_environ); reflexivity.
Qed.


(** X1.  What a returning [get_environ_info] reports: a dictionary with
    the keys 'place' and 'num', in that order; the place is 'gpu' exactly
    when the framework is compiled with CUDA, the device name contains
    'gpu' and the number of ranks is not zero, and 'cpu' otherwise; the
    number is the number of ranks on the GPU and [int(CPU_NUM)], or 1 when
    CPU_NUM is unset, on the CPU. *)
Theorem environ_info_place_and_num (rt : Runtime) (os_environ : dict string)
    (info : dict pyval) :
  fst (get_environ_info int_of_str rt os_environ) = Ok info ->
  map fst info = ["place"; "num"]%string
  /\ dict_get "place" info
     = Some (PyStr (if gpu_place rt then "gpu" else "cpu"))
  /\ (gpu_place rt = true -> dict_get "num" info = Some (PyInt (nranks rt)))
  /\ (gpu_place rt = false ->
      exists n, cpu_num int_of_str os_environ = Ok n
                /\ dict_get "num" info = Some (PyInt n))
  /\ (dict_get "CPU_NUM" os_environ = None -> gpu_place rt = false ->
      dict_get "num" info = Some (PyInt 1)).
Proof.
  rewrite get_environ_info_eq. cbn [fst]. intros H.
  destruct (cpu_num int_of_str os_environ) as [n|] eqn:E; [|discriminate H].
  injection H as <-. cbn [map fst dict_get String.eqb Ascii.eqb Bool.eqb].
  repeat split.
  - intros ->. reflexivity.
  - intros ->. exists n. split; reflexivity.
  - intros Hc ->. unfold cpu_num in E. rewrite Hc in E.
    injection E as <-. reflexivity.
Qed.

(** X2.  What [get_environ_info] does to [os.environ], whether it returns
    or raises: no variable other than CUDA_VISIBLE_DEVICES changes;
    CUDA_VISIBLE_DEVICES is set to the empty string when the framework is
    compiled with CUDA and no GPU is in use; the environment is left as it
    was when the framework is not compiled with CUDA or the place is the
    GPU. *)
Theorem environ_info_effect (rt : Runtime) (os_environ : dict string) :
  (forall k, k <> "CUDA_VISIBLE_DEVICES"%string ->
     dict_get k (snd (get_environ_info int_of_str rt os_environ))
     = dict_get k os_environ)
  /\ (is_compiled_with_cuda rt = true -> gpu_place rt = false ->
      dict_get "CUDA_VISIBLE_DEVICES"
        (snd (get_environ_info int_of_str rt os_environ))
      = Some EmptyString)
  /\ (is_compiled_with_cuda rt = false \/ gpu_place rt = true ->
      snd (get_environ_info int_of_str rt os_environ) = os_environ).
Proof.
  rewrite get_environ_info_eq. cbn [snd]. repeat split.
  - intros k Hk.
    destruct (is_compiled_with_cuda rt && negb (gpu_place rt));
      [now apply dict_get_set_other | reflexivity].
  - intros -> ->. cbn [andb negb]. apply dict_get_set_same.
  - intros [-> | ->]; [reflexivity|].
    now rewrite andb_false_r.
Qed.

(** X3.  [get_environ_info] raises exactly when CPU_NUM is set to a string
    that [int] refuses, with the error of [int]; this is so whatever the
    framework reports, also when the place is the GPU and CPU_NUM is not
    used. *)
Theorem environ_info_fails_iff (rt : Runtime) (os_environ : dict string)
    (e : exn) :
  fst (get_environ_info int_of_str rt os_environ) = Err e
  <-> exists s, dict_get "CPU_NUM" os_environ = Some s
                /\ int_of_str s = Err e.
Proof.
  rewrite get_environ_info_eq. cbn [fst]. unfold cpu_num.
  destruct (dict_get "CPU_NUM" os_environ) as [s|].
  - split.
    + intros H. exists s. split; [reflexivity|].
      destruct (int_of_str s); [discriminate H | now injection H as ->].
    + intros (s' & Hs & He). injection Hs as <-. now rewrite He.
  - split; [discriminate|]. intros (s & Hs & _). discriminate Hs.
Qed.

End EnvFacts.

(** ** More on [get_num_workers] *)

(** X4.  [get_num_workers] never returns 'auto', and applying it to its
    own result changes nothing. *)
Theorem get_num_workers_idempotent (cpu_count : Z) (num_workers : pyval) :
  get_num_workers cpu_count num_workers <> PyStr "auto"
  /\ get_num_workers cpu_count (get_num_workers cpu_count num_workers)
     = get_num_workers cpu_count num_workers.
Proof.
  unfold get_num_workers.
  destruct (pyval_eqb num_workers (PyStr "auto")) eqn:E.
  - split; [discriminate | reflexivity].
  - split; [|now rewrite E].
    intros ->. discriminate E.
Qed.

(** X5.  On a machine with [cpu_count >= 1] the automatic worker count
    lies between 0 and 8, is 0 exactly on a single CPU, is 8 exactly from
    16 CPUs on, and never decreases when CPUs are added. *)
Theorem get_num_workers_auto_range (cpu_count : Z) :
  1 <= cpu_count ->
  exists k,
    get_num_workers cpu_count (PyStr "auto") = PyInt k
    /\ 0 <= k <= 8
    /\ (k = 0 <-> cpu_count = 1)
    /\ (k = 8 <-> 16 <= cpu_count)
    /\ forall more k',
         cpu_count <= more ->
         get_num_workers more (PyStr "auto") = PyInt k' -> k <= k'.
Proof.
  intros Hc. unfold get_num_workers. cbn [pyval_eqb String.eqb].
  change (pyval_eqb (PyStr "auto") (PyStr "auto")) with true. cbv iota.
  eexists. split; [reflexivity|].
  destruct (Z.ltb_spec (cpu_count / 2) 8) as [Hlt|Hge].
  - repeat split; try (Z.div_mod_to_equations; lia).
    intros more k' Hm Hk.
    destruct (Z.ltb_spec (more / 2) 8); injection Hk as <-;
      Z.div_mod_to_equations; lia.
  - repeat split; try (Z.div_mod_to_equations; lia).
    intros more k' Hm Hk.
    destruct (Z.ltb_spec (more / 2) 8); injection Hk as <-;
      Z.div_mod_to_equations; lia.
Qed.


(** ** More on the interlaced pipeline *)

Section PipelineFacts.

Context {A : Type} (zero : A).

(** X6.  Cropping undoes padding: for any non-negative deficits, the crop
    of lines 150-152 applied to the padded map of lines 131-137 gives back
    the map that was padded. *)
Theorem crop_undoes_pad (x : tensor A) (n c h w : nat) (pad_h pad_w : Z) :
  wf x -> shape x = [n; c; h; w] -> 0 <= pad_h -> 0 <= pad_w ->
  exists T,
    pad_to_grid zero x pad_h pad_w = Ok T
    /\ crop zero T pad_h pad_w (Z.of_nat h) (Z.of_nat w) = Ok x.
Proof.
  intros Hwf Hs Hh Hw.
  destruct (pad_to_grid_ok zero x n c h w pad_h pad_w)
    as (T & ET & WT & ST & GT); try assumption.
  specialize (WT Hwf). exists T. split; [exact ET|].
  destruct (crop_ok zero T n c h w pad_h pad_w) as (R & ER & WR & SR & GR);
    try assumption.
  specialize (WR WT). rewrite ER. f_equal.
  apply (tensor_ext zero); try assumption; [congruence|].
  intros idx Hb. rewrite SR in Hb.
  destruct idx as [|i [|j [|y [|x0 [|? ?]]]]]; cbn [in_bounds] in Hb;
    try contradiction; try (now destruct Hb); try (now decompose [and] Hb).
  destruct Hb as (Hi & Hj & Hy & Hx & _).
  assert (0 <= pad_h / 2 <= pad_h)
    by (split; [apply Z.div_pos|apply Z.div_le_upper_bound]; lia).
  assert (0 <= pad_w / 2 <= pad_w)
    by (split; [apply Z.div_pos|apply Z.div_le_upper_bound]; lia).
  rewrite GR by assumption.
  rewrite GT by (rewrite ST; cbn [in_bounds]; lia).
  cbn [padded_at].
  destruct (Nat.leb_spec (Z.to_nat (pad_h / 2)) (Z.to_nat (pad_h / 2) + y));
    [|lia].
  destruct (Nat.ltb_spec (Z.to_nat (pad_h / 2) + y) (Z.to_nat (pad_h / 2) + h));
    [|lia].
  destruct (Nat.leb_spec (Z.to_nat (pad_w / 2)) (Z.to_nat (pad_w / 2) + x0));
    [|lia].
  destruct (Nat.ltb_spec (Z.to_nat (pad_w / 2) + x0)
              (Z.to_nat (pad_w / 2) + w)); [|lia].
  cbn [andb]. f_equal; f_equal; repeat f_equal; lia.
Qed.

(** X7.  The three rearrangements of lines 139-149 compose to the
    identity: the global layout, then the local layout, then the
    recomposition give back the padded map. *)
Theorem layouts_compose_to_identity (t : tensor A) (n c qh ph qw pw : nat) :
  wf t ->
  (0 < n)%nat -> (0 < c)%nat -> (0 < qh)%nat -> (0 < ph)%nat ->
  (0 < qw)%nat -> (0 < pw)%nat ->
  shape t = [n; c; qh * ph; qw * pw]%nat ->
  exists g l,
    to_global_layout zero t (Z.of_nat n) (Z.of_nat c) (Z.of_nat qh)
      (Z.of_nat ph) (Z.of_nat qw) (Z.of_nat pw) = Ok g
    /\ to_local_layout zero g (Z.of_nat n) (Z.of_nat c) (Z.of_nat qh)
         (Z.of_nat ph) (Z.of_nat qw) (Z.of_nat pw) = Ok l
    /\ recompose zero l (Z.of_nat n) (Z.of_nat c) (Z.of_nat qh)
         (Z.of_nat ph) (Z.of_nat qw) (Z.of_nat pw) = Ok t.
Proof.
  intros Hwf Hn Hc Hqh Hph Hqw Hpw Hs.
  eexists. eexists.
  split; [apply to_global_layout_ok; assumption|].
  split; [apply to_local_layout_ok; (assumption || reflexivity)|].
  rewrite (recompose_ok zero _ n c qh ph qw pw) by (reflexivity || lia).
  cbn [data]. rewrite regroup_roundtrip
    by (unfold wf in Hwf; rewrite Hwf, Hs; cbn [numel fold_right]; ring).
  rewrite (Nat.mul_comm ph qh), (Nat.mul_comm pw qw).
  now rewrite (retag_shape t _ Hs).
Qed.

(** X8.  The recomposition of lines 147-149: from a map of shape
    (N*Qh*Qw, C, Ph, Pw) it gives shape (N, C, Ph*Qh, Pw*Qw), and the
    element at offset (a, e) of the slice of group (y, x) lands at row
    y*Ph + a and column x*Pw + e. *)
Theorem recompose_unfolds_batch (l : tensor A) (n c qh ph qw pw : nat) :
  (0 < n)%nat -> (0 < c)%nat -> (0 < qh)%nat -> (0 < ph)%nat ->
  (0 < qw)%nat -> (0 < pw)%nat ->
  shape l = [n * qh * qw; c; ph; pw]%nat ->
  exists r,
    recompose zero l (Z.of_nat n) (Z.of_nat c) (Z.of_nat qh)
      (Z.of_nat ph) (Z.of_nat qw) (Z.of_nat pw) = Ok r
    /\ shape r = [n; c; ph * qh; pw * qw]%nat
    /\ forall i j y a x e,
         (i < n)%nat -> (j < c)%nat -> (y < qh)%nat -> (a < ph)%nat ->
         (x < qw)%nat -> (e < pw)%nat ->
         tget zero r [i; j; y * ph + a; x * pw + e]%nat
         = tget zero l [(i * qh + y) * qw + x; j; a; e]%nat.
Proof.
  intros Hn Hc Hqh Hph Hqw Hpw Hs.
  eexists. split; [apply recompose_ok; assumption|].
  split; [reflexivity|].
  intros i j y a x e Hi Hj Hy Ha Hx He.
  unfold tget. cbn [shape data]. rewrite Hs.
  replace (ravel [n; c; ph * qh; pw * qw] [i; j; y * ph + a; x * pw + e])%nat
    with (ravel (permute 0%nat [0; 3; 1; 4; 2; 5]%nat
                   [n; qh; qw; c; ph; pw]) [i; j; y; a; x; e])
    by (cbn [permute map nth ravel numel fold_right]; ring).
  rewrite regroup_nth by (cbn; lia).
  f_equal. cbn [unpermute length seq map index_of Nat.eqb nth ravel numel
                fold_right]. ring.
Qed.



(** ** More on the head and the network *)


(** X11.  A zero in the group factor is met at the forward call, not at
    construction: once [in_conv] has returned a 4-D map, the division of
    line 129 raises [ZeroDivisionError]. *)
Theorem forward_zero_group_factor (self : ISAHead A) (C3 C4 x : tensor A)
    (n c h w : nat) (P_h P_w : Z) :
  apply_layer (in_conv self) C4 = Ok x -> shape x = [n; c; h; w] ->
  down_factor self = [P_h; P_w] -> P_h = 0 \/ P_w = 0 ->
  ISAHead_forward zero self [C3; C4] = Err ZeroDivisionError.
Proof.
  intros Hx Hs Hdf Hz.
  unfold ISAHead_forward, fuse. rewrite Hx. cbn [bind].
  unfold interlace, shapeZ. rewrite Hs, Hdf. cbn [map].
  unfold ceil_div.
  destruct (Z.eqb_spec P_h 0) as [_|Hh]; [reflexivity|].
  destruct (Z.eqb_spec P_w 0) as [_|Hw]; [reflexivity|].
  lia.
Qed.

(** X12.  A group factor that is not a pair is met at the forward call
    too: once [in_conv] has returned a 4-D map, the unpacking of line 128
    raises [ValueError]. *)
Theorem forward_group_factor_arity (self : ISAHead A) (C3 C4 x : tensor A)
    (n c h w : nat) :
  apply_layer (in_conv self) C4 = Ok x -> shape x = [n; c; h; w] ->
  length (down_factor self) <> 2%nat ->
  ISAHead_forward zero self [C3; C4] = Err ValueError.
Proof.
  intros Hx Hs Hdf.
  unfold ISAHead_forward, fuse. rewrite Hx. cbn [bind].
  unfold interlace, shapeZ. rewrite Hs. cbn [map].
  destruct (down_factor self) as [|p [|q [|r rest]]]; try reflexivity.
  cbn [length] in Hdf. congruence.
Qed.

End PipelineFacts.

Section NetFacts.

Context {A : Type} (zero : A).
Context (bilinear : tensor A -> list Z -> bool -> list A).
Context (load_entire_model : ISANet A -> string -> result (ISANet A)).

Lemma py_index_ok_in_range {X : Type} (l : list X) (i : Z) (v : X) :
  py_index l i = Ok v ->
  - Z.of_nat (length l) <= i < Z.of_nat (length l).
Proof.
  intros H.
  destruct (Z.lt_ge_cases i (- Z.of_nat (length l))) as [Hlo|Hlo];
    [rewrite py_index_out_of_range in H by lia; discriminate H|].
  destruct (Z.lt_ge_cases i (Z.of_nat (length l))) as [Hhi|Hhi]; [lia|].
  rewrite py_index_out_of_range in H by lia. discriminate H.
Qed.

Lemma select_ok_in_range {X : Type} (l : list X) (idx : list Z) :
  forall vs, map_result (py_index l) idx = Ok vs ->
             Forall (fun i => - Z.of_nat (length l) <= i
                              < Z.of_nat (length l)) idx.
Proof.
  induction idx as [|i idx IH]; intros vs H; [constructor|].
  cbn [map_result] in H.
  destruct (py_index l i) as [v|] eqn:E; [|discriminate H]. cbn [bind] in H.
  destruct (map_result (py_index l) idx) as [vs'|]; [|discriminate H].
  constructor; [exact (py_index_ok_in_range _ _ _ E) | now apply (IH vs')].
Qed.

Lemma select_last {X : Type} (l : list X) (idx : list Z) (d : X) :
  forall vs, idx <> [] -> map_result (py_index l) idx = Ok vs ->
             py_index l (last idx 0) = Ok (last vs d).
Proof.
  induction idx as [|i idx IH]; intros vs Hne H; [contradiction|].
  cbn [map_result] in H.
  destruct (py_index l i) as [v|] eqn:E; [|discriminate H]. cbn [bind] in H.
  destruct (map_result (py_index l) idx) as [vs'|] eqn:E';
    [|discriminate H].
  cbn [bind] in H. injection H as <-.
  destruct idx as [|i' idx].
  - cbn in E'. injection E' as <-. exact E.
  - assert (Hvs : vs' <> []).
    { intros ->. apply map_result_length in E'. discriminate E'. }
    destruct vs' as [|v' vs']; [contradiction|].
    change (last (i :: i' :: idx) 0) with (last (i' :: idx) 0).
    change (last (v :: v' :: vs') d) with (last (v' :: vs') d).
    apply IH; [discriminate|reflexivity].
Qed.

(** X13.  When no pretrained weights are asked for, [ISANet.__init__]
    returns exactly when at least one stage index is configured, every
    configured index is in range of [backbone.feat_channels] (negative
    indices counting from the end), the channel count at the last
    configured index is at least 4, and [isa_channels] and [num_classes]
    are positive; the head is then built for the channel count at the last
    configured index, and the indices are stored. *)
Theorem isanet_init_succeeds_iff (num_classes : Z)
    (bb : tensor A -> result (list (tensor A))) (fc idx : list Z) (isa : Z)
    (df : list Z) (en align : bool) (th : Weights A) :
  ((exists net,
      ISANet_init load_entire_model num_classes bb fc idx isa df en align
        None th = Ok net)
   <-> idx <> []
       /\ Forall (fun i => - Z.of_nat (length fc) <= i
                           < Z.of_nat (length fc)) idx
       /\ (exists c, py_index fc (last idx 0) = Ok c /\ 4 <= c)
       /\ 0 < isa /\ 0 < num_classes)
  /\ forall net,
       ISANet_init load_entire_model num_classes bb fc idx isa df en align
         None th = Ok net ->
       py_index fc (last idx 0) = Ok (in_channels (head net))
       /\ backbone_indices net = idx.
Proof.
  assert (Hsome : forall net,
             ISANet_init load_entire_model num_classes bb fc idx isa df en
               align None th = Ok net ->
             exists in_chs,
               map_result (py_index fc) idx = Ok in_chs
               /\ idx <> [] /\ in_chs <> []
               /\ 4 <= last in_chs 0 /\ 0 < isa /\ 0 < num_classes
               /\ in_channels (head net) = last in_chs 0
               /\ backbone_indices net = idx).
  { intros net H. unfold ISANet_init in H.
    destruct (map_result (py_index fc) idx) as [in_chs|] eqn:E;
      [|discriminate H].
    cbn [bind] in H.
    destruct in_chs as [|c0 rest]; [discriminate H|].
    rewrite ISAHead_init_eq in H.
    destruct (Z.leb_spec 4 (last (c0 :: rest) 0)); [|discriminate H].
    destruct (Z.ltb_spec 0 isa); [|discriminate H].
    destruct (Z.ltb_spec 0 num_classes); [|discriminate H].
    cbn [andb bind init_weight pretrained] in H. injection H as <-.
    exists (c0 :: rest). repeat split; try assumption; try discriminate.
    intros ->. discriminate E. }
  split; [split|].
  - intros [net H].
    destruct (Hsome net H) as (in_chs & E & Hne & _ & H4 & Hi & Hn & _ & _).
    split; [exact Hne|]. split; [exact (select_ok_in_range _ _ _ E)|].
    split; [|split; assumption].
    exists (last in_chs 0). split; [|exact H4].
    now apply select_last.
  - intros (Hne & Hall & (c & Ec & H4) & Hi & Hn).
    destruct (select_present fc idx Hall) as (vs & Evs & Lvs).
    pose proof (select_last fc idx 0 vs Hne Evs) as El.
    rewrite Ec in El. injection El as ->.
    unfold ISANet_init. rewrite Evs. cbn [bind].
    destruct vs as [|c0 rest];
      [destruct idx; [contradiction|discriminate Lvs]|].
    rewrite ISAHead_init_eq.
    destruct (Z.leb_spec 4 (last (c0 :: rest) 0)); [|lia].
    destruct (Z.ltb_spec 0 isa); [|lia].
    destruct (Z.ltb_spec 0 num_classes); [|lia].
    cbn [andb bind init_weight pretrained]. eexists. reflexivity.
  - intros net H.
    destruct (Hsome net H) as (in_chs & E & Hne & _ & _ & _ & _ & Hc & Hb).
    split; [|exact Hb]. rewrite Hc. now apply select_last.
Qed.

(** X14.  With no stage index configured, or with one out of range of
    [backbone.feat_channels], [ISANet.__init__] raises [IndexError],
    whatever the pretrained path: the weights are not loaded. *)
Theorem isanet_init_index_error (num_classes : Z)
    (bb : tensor A -> result (list (tensor A))) (fc idx : list Z) (isa : Z)
    (df : list Z) (en align : bool) (pre : option string) (th : Weights A) :
  idx = []
  \/ Exists (fun i => i < - Z.of_nat (length fc) \/ Z.of_nat (length fc) <= i)
            idx ->
  ISANet_init load_entire_model num_classes bb fc idx isa df en align pre th
  = Err IndexError.
Proof.
  intros [-> | H]; unfold ISANet_init.
  - reflexivity.
  - now rewrite select_missing.
Qed.


End NetFacts.


(** * Concrete runs *)

Example ceil_div_13_8 : ceil_div 13 8 = Ok 2.
Proof. reflexivity. Qed.

Example ceil_div_by_zero : ceil_div 13 0 = Err ZeroDivisionError.
Proof. reflexivity. Qed.

Example pad_3_by_5_to_4_by_6 :
  pad_to_grid 0 ex_map 1 1
  = Ok (mkTensor [1; 2; 4; 6]%nat
          [1; 2; 3; 4; 5; 0; 6; 7; 8; 9; 10; 0; 11; 12; 13; 14; 15; 0;
           0; 0; 0; 0; 0; 0;
           16; 17; 18; 19; 20; 0; 21; 22; 23; 24; 25; 0; 26; 27; 28; 29; 30; 0;
           0; 0; 0; 0; 0; 0]).
Proof. vm_compute. reflexivity. Qed.

(** The first slice of the global layout holds the top-left element of
    each of the 2 x 3 groups, for both channels. *)
Example global_layout_first_slice :
  exists g, to_global_layout 0 ex_padded 1 2 2 2 3 2 = Ok g
            /\ shape g = [4; 2; 2; 3]%nat
            /\ firstn 12 (data g) = [1; 3; 5; 13; 15; 17;
                                     25; 27; 29; 37; 39; 41].
Proof. eexists. split; [vm_compute; reflexivity|]. split; reflexivity. Qed.

Example roundtrip_3_by_5 :
  interlace 0 (built_head 19 8 4 [2; 2] true ex_identity_weights) ex_map
  = Ok ex_map.
Proof. vm_compute. reflexivity. Qed.

Example zero_group_factor_at_forward :
  interlace 0 (built_head 19 8 4 [0; 2] true ex_identity_weights) ex_map
  = Err ZeroDivisionError.
Proof. reflexivity. Qed.

Example short_backbone_run :
  ISANet_forward 0 ex_bilinear (ex_net ex_short_backbone) ex_image
  = Err IndexError.
Proof. reflexivity. Qed.

Example workers_auto_4_cpus : get_num_workers 4 (PyStr "auto") = PyInt 2.
Proof. reflexivity. Qed.

Example workers_auto_64_cpus : get_num_workers 64 (PyStr "auto") = PyInt 8.
Proof. reflexivity. Qed.

(** * The theorems at concrete inputs *)


(** Construction goes through for 2050 channels, not a multiple of 4, and
    for a group factor with a zero and a negative entry. *)
Lemma ISAHead_init_raises_counterexample :
  2050 mod 4 <> 0
  /\ (forall e, ISAHead_init 19 [1024; 2050] 256 [8; 8] true
                  ex_blank_weights <> Err e)
  /\ (forall e, ISAHead_init 19 [1024; 2048] 256 [0; -8] true
                  ex_blank_weights <> Err e).
Proof. repeat split; intros; discriminate. Qed.

Lemma ISAHead_init_outcome_witness :
  ISAHead_init 19 [1024; 2050] 256 [0; -8] true ex_blank_weights
  = Ok (built_head 19 2050 256 [0; -8] true ex_blank_weights).
Proof.
  apply (proj1 (proj1 (ISAHead_init_outcome 19 256 [0; -8] true
                         ex_blank_weights) 1024 [2050]));
    cbn [last]; lia.
Defined.

(** With a stage missing from the backbone's list, the forward call fails,
    and the exception is not one named ShapeMismatchError. *)
Lemma missing_stage_error_counterexample :
  ~ (exists e,
       ISANet_forward 0 ex_bilinear (ex_net ex_short_backbone) ex_image
       = Err e
       /\ exn_name e = "ShapeMismatchError"%string).
Proof.
  intros (e & He & Hn).
  change (ISANet_forward 0 ex_bilinear (ex_net ex_short_backbone) ex_image)
    with (@Err (list (tensor Z)) IndexError) in He.
  injection He as <-. discriminate Hn.
Qed.

Lemma pad_to_grid_spec_witness :
  exists Q_h Q_w T,
    ceil_div 13 8 = Ok Q_h /\ ceil_div 13 8 = Ok Q_w
    /\ pad_to_grid 0 ex_map13 (Q_h * 8 - 13) (Q_w * 8 - 13) = Ok T
    /\ shapeZ T = [1; 1; Q_h * 8; Q_w * 8].
Proof.
  destruct (pad_to_grid_spec 0 ex_map13 1 1 13 13 8 8)
    as (Q_h & Q_w & T & E1 & E2 & _ & _ & _ & E3 & E4 & _);
    try reflexivity; try lia; try (split; [lia | reflexivity]).
  exists Q_h, Q_w, T. repeat split; assumption.
Defined.

Lemma layouts_fold_into_batch_witness :
  exists g,
    to_global_layout 0 ex_padded 1 2 2 2 3 2 = Ok g
    /\ shape g = [4; 2; 2; 3]%nat.
Proof.
  destruct (layouts_fold_into_batch 0 ex_padded 1 2 2 2 3 2)
    as [(g & Eg & Sg & _) _]; try lia; try reflexivity.
  exists g. split; [exact Eg | exact Sg].
Defined.

Lemma isanet_end_to_end_shapes_witness :
  exists primary,
    shape primary = [1; 19; 512; 512]%nat
    /\ exists auxiliary,
         ISANet_forward 0 ex_bilinear (ex_net ex_backbone) ex_image
         = Ok [primary; auxiliary]
         /\ shape auxiliary = [1; 19; 512; 512]%nat.
Proof.
  apply (isanet_end_to_end_shapes 0 ex_bilinear ex_load ex_backbone 256 true
           false ex_blank_weights (ex_net ex_backbone) ex_image
           (ex_stage 256) (ex_stage 512) (ex_stage 1024) (ex_stage 2048)
           1 1 1 1); try reflexivity; lia.
Defined.

Lemma forward_auxiliary_toggle_witness :
  exists outs,
    ISANet_forward 0 ex_bilinear ex_small_net ex_image = Ok outs
    /\ length outs = 2%nat.
Proof.
  destruct (ISANet_forward 0 ex_bilinear ex_small_net ex_image)
    as [outs|e] eqn:E; [|vm_compute in E; discriminate E].
  exists outs. split; [reflexivity|].
  exact (proj2 (forward_auxiliary_toggle 0 ex_bilinear) _ _ _ E).
Defined.

Lemma missing_stage_fails_witness :
  ISANet_forward 0 ex_bilinear (ex_net ex_short_backbone) ex_image
  = Err IndexError.
Proof.
  apply (proj1 (missing_stage_fails 0 ex_bilinear (ex_net ex_short_backbone)
                  ex_image _ eq_refl)).
  right. left. cbn. lia.
Defined.


Lemma auxiliary_needs_1024_witness :
  apply_layer (aux (built_head 19 2048 256 [8; 8] true ex_blank_weights))
    (ex_stage 512) = Err InvalidArgument.
Proof.
  apply (auxiliary_needs_1024 0 19 256 [1024; 2048] [8; 8] ex_blank_weights
           (built_head 19 2048 256 [8; 8] true ex_blank_weights)
           (ex_stage 512) (ex_stage 2048) 1 512 1 1);
    try reflexivity; lia.
Defined.

Lemma get_num_workers_spec_witness :
  get_num_workers 16 (PyInt 4) = PyInt 4.
Proof.
  apply (proj1 (get_num_workers_spec 16 (PyInt 4))). discriminate.
Defined.

(** * The further properties at concrete inputs *)

Example environ_on_gpu :
  get_environ_info ex_int_of_str ex_gpu_runtime ex_environ
  = (Ok [("place", PyStr "gpu"); ("num", PyInt 2)]%string, ex_environ).
Proof. reflexivity. Qed.

Example environ_on_cpu :
  get_environ_info ex_int_of_str ex_cpu_runtime ex_environ
  = (Ok [("place", PyStr "cpu"); ("num", PyInt 4)]%string,
     [("CPU_NUM", "4"); ("CUDA_VISIBLE_DEVICES", EmptyString)]%string).
Proof. reflexivity. Qed.

Example environ_bad_cpu_num_on_gpu :
  fst (get_environ_info ex_int_of_str ex_gpu_runtime ex_bad_environ)
  = Err ValueError.
Proof. reflexivity. Qed.

Lemma environ_info_place_and_num_witness :
  map fst [("place", PyStr "gpu"); ("num", PyInt 2)]%string
  = ["place"; "num"]%string
  /\ dict_get "place" [("place", PyStr "gpu"); ("num", PyInt 2)]%string
     = Some (PyStr "gpu").
Proof.
  destruct (environ_info_place_and_num ex_int_of_str ex_gpu_runtime
              ex_environ [("place", PyStr "gpu"); ("num", PyInt 2)]%string
              eq_refl) as (H1 & H2 & _).
  split; [exact H1 | exact H2].
Defined.

Lemma environ_info_effect_witness :
  dict_get "CUDA_VISIBLE_DEVICES"
    (snd (get_environ_info ex_int_of_str ex_cpu_runtime ex_environ))
  = Some EmptyString.
Proof.
  exact (proj1 (proj2 (environ_info_effect ex_int_of_str ex_cpu_runtime
                         ex_environ)) eq_refl eq_refl).
Defined.

Lemma environ_info_fails_iff_witness :
  fst (get_environ_info ex_int_of_str ex_gpu_runtime ex_bad_environ)
  = Err ValueError.
Proof.
  apply (proj2 (environ_info_fails_iff ex_int_of_str ex_gpu_runtime
                  ex_bad_environ ValueError)).
  exists "four"%string. split; reflexivity.
Defined.

Lemma get_num_workers_auto_range_witness :
  exists k, get_num_workers 4 (PyStr "auto") = PyInt k /\ 0 <= k <= 8.
Proof.
  destruct (get_num_workers_auto_range 4 ltac:(lia)) as (k & E & B & _).
  exists k. split; [exact E | exact B].
Defined.

Lemma crop_undoes_pad_witness :
  exists T, pad_to_grid 0 ex_map 1 1 = Ok T
            /\ crop 0 T 1 1 3 5 = Ok ex_map.
Proof.
  apply (crop_undoes_pad 0 ex_map 1 2 3 5 1 1); try reflexivity; lia.
Defined.

Lemma layouts_compose_to_identity_witness :
  exists g l,
    to_global_layout 0 ex_padded 1 2 2 2 3 2 = Ok g
    /\ to_local_layout 0 g 1 2 2 2 3 2 = Ok l
    /\ recompose 0 l 1 2 2 2 3 2 = Ok ex_padded.
Proof.
  apply (layouts_compose_to_identity 0 ex_padded 1 2 2 2 3 2);
    try reflexivity; lia.
Defined.

Lemma recompose_unfolds_batch_witness :
  exists r, recompose 0 ex_local 1 2 2 2 3 2 = Ok r
            /\ shape r = [1; 2; 4; 6]%nat.
Proof.
  destruct (recompose_unfolds_batch 0 ex_local 1 2 2 2 3 2)
    as (r & Er & Sr & _); try lia; try reflexivity.
  exists r. split; [exact Er | exact Sr].
Defined.



Lemma forward_zero_group_factor_witness :
  ISAHead_forward 0 (built_head 19 8 4 [0; 2] true ex_identity_weights)
    [ex_stage 1024; ex_high] = Err ZeroDivisionError.
Proof.
  apply (forward_zero_group_factor 0 _ (ex_stage 1024) ex_high
           (mkTensor [1; 2; 3; 5]%nat (data ex_high)) 1 2 3 5 0 2);
    try reflexivity.
  left. reflexivity.
Defined.

Lemma forward_group_factor_arity_witness :
  ISAHead_forward 0 (built_head 19 8 4 [2] true ex_identity_weights)
    [ex_stage 1024; ex_high] = Err ValueError.
Proof.
  apply (forward_group_factor_arity 0 _ (ex_stage 1024) ex_high
           (mkTensor [1; 2; 3; 5]%nat (data ex_high)) 1 2 3 5);
    try reflexivity.
  cbn. lia.
Defined.

Lemma isanet_init_succeeds_iff_witness :
  exists net,
    ISANet_init ex_load 19 ex_backbone [256; 512; 1024; 2048] [2; 3] 256
      [8; 8] true false None ex_blank_weights = Ok net.
Proof.
  apply (proj2 (proj1 (isanet_init_succeeds_iff ex_load 19 ex_backbone
                         [256; 512; 1024; 2048] [2; 3] 256 [8; 8] true false
                         ex_blank_weights))).
  split; [discriminate|].
  split; [repeat constructor; cbn; lia|].
  split; [exists 2048; split; [reflexivity|lia]|].
  split; lia.
Defined.

Lemma isanet_init_index_error_witness :
  ISANet_init ex_load 19 ex_backbone [256; 512; 1024; 2048] [2; 4] 256
    [8; 8] true false (Some "weights.pdparams"%string) ex_blank_weights
  = Err IndexError.
Proof.
  apply isanet_init_index_error. right. right. left. cbn. lia.
Defined.

